(** * kratos: a device-side WebPA client

    A shallow embedding of [kratos.go] (module [Kratos]) and of the earlier
    revision of the same file kept in the repository (module [Legacy]),
    with theorems about connection establishment, error classification,
    handler dispatch, the send path and the keepalive watchdog.

    Conventions.
    - Go strings and [[]byte] are Rocq [string]s (sequences of bytes).
    - Go [int] values are [Z]; the code never approaches the word bound.
    - A nil-able Go value ([error], [*http.Response], [*websocket.Conn],
      [*regexp.Regexp]) is an [option].
    - Calls into the network and into the transport are recorded, in
      program order, in a trace of [Event]s; what the outside world answers
      is a parameter of the model.
    - Logging calls and the closing of HTTP response bodies are not part of
      the model. *)

From Stdlib Require Import ZArith Lia List.
From Stdlib Require DecimalString DecimalPos DecimalZ.
From stdpp Require Import base option list strings gmap.

Local Open Scope string_scope.
Local Open Scope Z_scope.

(** ** Go's error values *)

(** [type Message struct { Code int; Message string }].  The string field is
    called [Msg] here, the struct keeps the name [Message]. *)
Record Message := mkMessage { Code : Z; Msg : string }.

(** The zero value a [var msg Message] starts from. *)
Definition Message_zero : Message := {| Code := 0; Msg := "" |}.

(** The dynamic values an [error] takes in this program: an opaque error
    carrying its text ([errors.New], [fmt.Errorf], errors of the libraries),
    or the package's own [*Error{Message, SubError}]. *)
Inductive error : Type :=
| errors_New (text : string)
| Error_ (Message_ : Message) (SubError : error).

(** [fmt.Sprintf("%d", n)] for an [int]: the decimal digits, after a minus
    sign when [n] is negative. *)
Definition Sprintf_d (n : Z) : string :=
  DecimalString.NilZero.string_of_int (Z.to_int n).

(** [func (msg Message) String() string]: [fmt.Sprintf("%d:%s", ...)]. *)
Definition Message_String (msg : Message) : string :=
  Sprintf_d (Code msg) +:+ ":" +:+ Msg msg.

(** [err.Error()]: the text of an opaque error, and for the package's own
    error [func (e *Error) Error() string], where [%s] prints the message
    through its [String] method. *)
Fixpoint Error (e : error) : string :=
  match e with
  | errors_New text => text
  | Error_ msg sub =>
      "message: " +:+ Message_String msg +:+ " with error: " +:+ Error sub
  end.

(** ** package strings *)

Module strings.

(** [strings.Index(s, substr)]: first byte offset of [substr] in [s], or -1. *)
Fixpoint Index (s substr : string) : Z :=
  if String.prefix substr s then 0
  else match s with
       | EmptyString => -1
       | String _ s' => let r := Index s' substr in
                        if r <? 0 then -1 else 1 + r
       end.

(** [strings.LastIndex(s, substr)]: last byte offset of [substr] in [s], or -1. *)
Fixpoint LastIndex (s substr : string) : Z :=
  match s with
  | EmptyString => if String.prefix substr EmptyString then 0 else -1
  | String _ s' => let r := LastIndex s' substr in
                   if 0 <=? r then 1 + r
                   else if String.prefix substr s then 0 else -1
  end.

(** Replace the first [n] non-overlapping instances of [old]. *)
Fixpoint replace_n (s old new : string) (n : nat) : string :=
  match n with
  | O => s
  | S n' =>
      let i := Index s old in
      if i <? 0 then s
      else String.substring 0 (Z.to_nat i) s
           +:+ new
           +:+ replace_n (String.substring (Z.to_nat i + String.length old)
                                           (String.length s) s) old new n'
  end.

(** [strings.Replace(s, old, new, n)], for a non-empty [old] (the only use
    in this package has [old = "http"]); a negative [n] replaces every
    instance.  With an empty [old] the library inserts [new] between UTF-8
    sequences, which is not modelled: [s] is returned. *)
Definition Replace (s old new : string) (n : Z) : string :=
  if decide (old = "") then s
  else if decide (old = new) then s
  else replace_n s old new (if n <? 0 then S (String.length s) else Z.to_nat n).

End strings.

(** ** package net/http *)

Module http.

Definition StatusTemporaryRedirect : Z := 307.

(** [http.StatusText]: the reason phrase of a known status code, and the
    empty string for every other code. *)
Definition StatusText (code : Z) : string :=
  match code with
  | 100 => "Continue"
  | 101 => "Switching Protocols"
  | 102 => "Processing"
  | 103 => "Early Hints"
  | 200 => "OK"
  | 201 => "Created"
  | 202 => "Accepted"
  | 203 => "Non-Authoritative Information"
  | 204 => "No Content"
  | 205 => "Reset Content"
  | 206 => "Partial Content"
  | 207 => "Multi-Status"
  | 208 => "Already Reported"
  | 226 => "IM Used"
  | 300 => "Multiple Choices"
  | 301 => "Moved Permanently"
  | 302 => "Found"
  | 303 => "See Other"
  | 304 => "Not Modified"
  | 305 => "Use Proxy"
  | 307 => "Temporary Redirect"
  | 308 => "Permanent Redirect"
  | 400 => "Bad Request"
  | 401 => "Unauthorized"
  | 402 => "Payment Required"
  | 403 => "Forbidden"
  | 404 => "Not Found"
  | 405 => "Method Not Allowed"
  | 406 => "Not Acceptable"
  | 407 => "Proxy Authentication Required"
  | 408 => "Request Timeout"
  | 409 => "Conflict"
  | 410 => "Gone"
  | 411 => "Length Required"
  | 412 => "Precondition Failed"
  | 413 => "Request Entity Too Large"
  | 414 => "Request URI Too Long"
  | 415 => "Unsupported Media Type"
  | 416 => "Requested Range Not Satisfiable"
  | 417 => "Expectation Failed"
  | 418 => "I'm a teapot"
  | 421 => "Misdirected Request"
  | 422 => "Unprocessable Entity"
  | 423 => "Locked"
  | 424 => "Failed Dependency"
  | 425 => "Too Early"
  | 426 => "Upgrade Required"
  | 428 => "Precondition Required"
  | 429 => "Too Many Requests"
  | 431 => "Request Header Fields Too Large"
  | 451 => "Unavailable For Legal Reasons"
  | 500 => "Internal Server Error"
  | 501 => "Not Implemented"
  | 502 => "Bad Gateway"
  | 503 => "Service Unavailable"
  | 504 => "Gateway Timeout"
  | 505 => "HTTP Version Not Supported"
  | 506 => "Variant Also Negotiates"
  | 507 => "Insufficient Storage"
  | 508 => "Loop Detected"
  | 510 => "Not Extended"
  | 511 => "Network Authentication Required"
  | _ => ""
  end.

(** [http.Header], a [map[string][]string].  Every key this package uses is
    written in canonical MIME form already, so key canonicalisation is the
    identity on them and is left out. *)
Abbreviation Header := (gmap string (list string)).

Definition Header_Add (key value : string) (h : Header) : Header :=
  <[key := (default [] (h !! key) ++ [value])%list]> h.

Definition Header_Set (key value : string) (h : Header) : Header :=
  <[key := [value]]> h.

Definition Header_Get (h : Header) (key : string) : string :=
  match h !! key with
  | Some (v :: _) => v
  | _ => ""
  end.

(** [*http.Request], as far as [createConnection] fills it in before it is
    sent. *)
Record Request := mkRequest {
  Method : string;
  URL : string;
  Request_Header : Header;
  Close : bool
}.

(** [*http.Response].  [Request_Response] is [resp.Request.Response]: the
    redirect response that caused the request answered by [resp] to be
    made, nil for a request that was not created by a redirect. *)
#[warnings="-register-all"]
Inductive Response : Type := mkResponse {
  StatusCode : Z;
  Response_Header : Header;
  Body : string;
  Request_Response : option Response
}.

End http.

(** ** Transport, messages and the trace of outside calls *)

(** A [*websocket.Conn]: the handle the dialer hands out. *)
Definition Conn := nat.

(** The frame types of the transport library. *)
Module websocket.
Definition TextMessage : Z := 1.
Definition BinaryMessage : Z := 2.
Definition CloseMessage : Z := 8.
Definition PingMessage : Z := 9.
Definition PongMessage : Z := 10.
End websocket.

(** A client certificate, named by the files it is loaded from. *)
Record Certificate := mkCertificate { crtFile : string; keyFile : string }.

(** [http.Client]: the zero value, or one with the TLS transport that
    [createConnection] builds (durations in seconds). *)
Record http_Transport := mkTransport {
  DialTimeout : Z;
  KeepAlive : Z;
  TLSHandshakeTimeout : Z;
  Transport_TLSClientConfig : Certificate
}.
Record http_Client := mkClient { Transport : option http_Transport }.

(** [websocket.Dialer]. *)
Record Dialer := mkDialer {
  TLSClientConfig : option Certificate;
  HandshakeTimeout : Z;
  ReadBufferSize : Z;
  WriteBufferSize : Z
}.
Definition Dialer_zero : Dialer :=
  {| TLSClientConfig := None; HandshakeTimeout := 0;
     ReadBufferSize := 0; WriteBufferSize := 0 |}.

(** The fields of a decoded [wrp.Message] envelope. *)
Record wrp_Message := mkWrp {
  Source : string;
  Destination : string;
  TransactionUUID : string;
  Payload : string
}.

(** A [ReadHandler] is an object of the user; it is named by a number and a
    call of its [HandleMessage] is an event of the trace. *)
Definition ReadHandler := nat.

Inductive goroutine := go_checkPing | go_read.

(** What the program does to the outside world, in program order. *)
Inductive Event : Type :=
| EvDo (client : http_Client) (req : http.Request)
| EvDial (dialer : Dialer) (wsURL : string) (headers : http.Header)
| EvSetReadLimit (c : Conn) (limit : Z)
| EvSetReadDeadline (c : Conn) (seconds : Z)
| EvSetWriteDeadline (c : Conn) (seconds : Z)
| EvSetPongHandler (c : Conn)
| EvSetPingHandler (c : Conn)
| EvReadMessage (c : Conn)
| EvWriteMessage (c : Conn) (messageType : Z) (data : string)
| EvWriteControl (c : Conn) (messageType : Z) (data : string) (seconds : Z)
| EvClose (c : Conn)
| EvHandleMessage (h : ReadHandler) (msg : wrp_Message)
| EvHandlePingMiss
| EvGo (g : goroutine).

(** A compiled [*regexp.Regexp]: the expression and what it matches. *)
Record Regexp := mkRegexp { expr : string; MatchString : string -> bool }.

(** The libraries and the peers the package talks to.  Answers that depend
    on what happened before take the trace so far. *)
Record Externals := mkExternals {
  device_ParseID : string -> option error;
  tls_LoadX509KeyPair : string -> string -> option error;
  url_Parse : string -> option error;
  client_Do : http_Client -> http.Request -> option http.Response * option error;
  dialer_Dial : Dialer -> string -> http.Header ->
                option Conn * option http.Response * option error;
  regexp_Compile : string -> option Regexp * option error;
  json_Unmarshal : string -> Message -> Message;
  wrp_Decode : string -> wrp_Message * option error;
  conn_ReadMessage : list Event -> Conn -> Z * string * option error;
  conn_WriteMessage : list Event -> Conn -> Z -> string -> option error;
  conn_WriteControl : list Event -> Conn -> Z -> string -> option error;
  conn_Close : list Event -> Conn -> option error
}.

(** ** A monad for Go function bodies *)

(** The [stop] channel of the watchdog: not made yet, open, or closed. *)
Inductive chan_state := chan_nil | chan_open | chan_closed.

(** A [*time.Timer]: running, fired with its value waiting in [C], or
    neither (stopped, or fired and received). *)
Inductive timer_state := timer_armed | timer_fired | timer_idle.

(** Where the [checkPing] goroutine is: not started, waiting in its
    [select], stuck in a receive from the drained channel of its timer (the
    earlier revision only), out of the loop with its deferred calls still to
    run, or gone. *)
Inductive goroutine_state :=
  not_started | in_select | draining | returning | finished.

(** The world a call runs in: the trace of outside calls so far and the
    state of the watchdog goroutine with its channel and timer. *)
Record World := mkWorld {
  trace : list Event;
  stop : chan_state;
  pingTimer : timer_state;
  watchdog : goroutine_state
}.

Definition World_init : World :=
  {| trace := []; stop := chan_nil; pingTimer := timer_idle;
     watchdog := not_started |}.

Definition set_trace (t : list Event) (w : World) : World :=
  {| trace := t; stop := stop w; pingTimer := pingTimer w; watchdog := watchdog w |}.
Definition set_stop (c : chan_state) (w : World) : World :=
  {| trace := trace w; stop := c; pingTimer := pingTimer w; watchdog := watchdog w |}.
Definition set_pingTimer (tm : timer_state) (w : World) : World :=
  {| trace := trace w; stop := stop w; pingTimer := tm; watchdog := watchdog w |}.
Definition set_watchdog (g : goroutine_state) (w : World) : World :=
  {| trace := trace w; stop := stop w; pingTimer := pingTimer w; watchdog := g |}.

(** A call returns, panics, or has not returned: it is blocked on a channel,
    or still in its loop when the fuel of the model ran out. *)
Inductive outcome (A : Type) : Type :=
| Return (a : A)
| Panic (reason : string)
| Pending.
Arguments Return {A} a.
Arguments Panic {A} reason.
Arguments Pending {A}.

Definition M (A : Type) : Type := World -> outcome A * World.

Definition ret {A} (a : A) : M A := fun w => (Return a, w).

Definition bind {A B} (m : M A) (k : A -> M B) : M B :=
  fun w => match m w with
           | (Return a, w') => k a w'
           | (Panic r, w') => (Panic r, w')
           | (Pending, w') => (Pending, w')
           end.

Definition panic {A} (reason : string) : M A := fun w => (Panic reason, w).

(** An outside call: its event is recorded and the answer computed from the
    trace before the call. *)
Definition call {A} (ev : Event) (answer : list Event -> A) : M A :=
  fun w => (Return (answer (trace w)), set_trace (trace w ++ [ev])%list w).

(** A state change of the Go runtime that no outside party sees. *)
Definition modify (f : World -> World) : M unit := fun w => (Return tt, f w).

Notation "'let*' p ':=' m 'in' k" := (bind m (fun p => k))
  (at level 10, p pattern, m at level 100, k at level 200, only parsing).
Notation "m ;;; k" := (bind m (fun _ => k))
  (at level 100, right associativity, only parsing).

(** [defer d] around [m]: [d] runs when [m] returns and when it panics, and
    not while [m] is pending. *)
Definition defer {A} (m : M A) (d : M unit) : M A :=
  fun w => match m w with
           | (Return a, w') => bind d (fun _ => ret a) w'
           | (Panic r, w') => bind d (fun _ => panic r) w'
           | (Pending, w') => (Pending, w')
           end.

Definition nil_dereference : string :=
  "invalid memory address or nil pointer dereference".

(** A run from the initial world. *)
Definition run {A} (m : M A) : outcome A * World := m World_init.

(** ** Types shared by both revisions of the client *)

(** [type HandlePingMiss func() error]: a function of the user; a call is an
    event of the trace and the answer may depend on the trace so far. *)
Definition HandlePingMiss := list Event -> option error.

Record HandlerRegistry := mkHandlerRegistry {
  HandlerKey : string;
  keyRegex : option Regexp;
  Handler : ReadHandler
}.

(** [ClientFactory], without its logger.  The field [HandlePingMiss] shares its
    name with its type in the source and is [Factory_HandlePingMiss] here. *)
Record ClientFactory := mkClientFactory {
  DeviceName : string;
  FirmwareName : string;
  ModelName : string;
  Manufacturer : string;
  DestinationURL : string;
  CRT : string;
  Key : string;
  Handlers : list HandlerRegistry;
  Factory_HandlePingMiss : option HandlePingMiss
}.

Record clientHeader := mkClientHeader {
  deviceName : string;
  firmwareName : string;
  modelName : string;
  manufacturer : string
}.

(** The [inHeader] that [New] fills from the factory. *)
Definition inHeader_of (f : ClientFactory) : clientHeader :=
  {| deviceName := DeviceName f;
     firmwareName := FirmwareName f;
     modelName := ModelName f;
     manufacturer := Manufacturer f |}.

Definition StatusDeviceDisconnected : Z := 523.
Definition StatusDeviceTimeout : Z := 524.

Section Shared.

Variable E : Externals.

(** [createError], the same text in both revisions.  The body is read to
    the end and unmarshalled into a zero [Message]; both errors are
    dropped, so a body that does not parse leaves what the decoder left. *)
Definition createError (resp : http.Response) (err : error) : error :=
  let data := http.Body resp in
  let msg := json_Unmarshal E data Message_zero in
  let msg :=
    if decide (Msg msg = "") then
      if http.StatusCode resp =? StatusDeviceDisconnected then
        {| Code := Code msg; Msg := "ErrorDeviceBusy" |}
      else if http.StatusCode resp =? StatusDeviceTimeout then
        {| Code := Code msg;
           Msg := "ErrorTransactionsClosed/ErrorTransactionsAlreadyClosed/ErrorDeviceClosed" |}
      else
        {| Code := Code msg; Msg := http.StatusText (Code msg) |}
    else msg in
  Error_ msg err.

(** [http.NewRequest(method, url, nil)]: fails when the URL does not parse. *)
Definition http_NewRequest (method url : string)
  : option http.Request * option error :=
  match url_Parse E url with
  | Some err => (None, Some err)
  | None => (Some {| http.Method := method; http.URL := url;
                     http.Request_Header := ∅; http.Close := false |}, None)
  end.

(** The identity headers [createConnection] collects for the dial. *)
Definition identity_headers (headerInfo : clientHeader) : http.Header :=
  http.Header_Add "X-Webpa-Manufacturer" (manufacturer headerInfo)
    (http.Header_Add "X-Webpa-Model-Name" (modelName headerInfo)
      (http.Header_Add "X-Webpa-Firmware-Name" (firmwareName headerInfo)
        (http.Header_Add "X-Webpa-Device-Name" (deviceName headerInfo) ∅))).

(** The loop of [New] over [newClient.handlers]: each pattern is compiled
    into its registration, and the first failure stops the loop. *)
Fixpoint compileHandlers (handlers : list HandlerRegistry)
  : list HandlerRegistry * option error :=
  match handlers with
  | [] => ([], None)
  | h :: rest =>
      let '(re, err) := regexp_Compile E (HandlerKey h) in
      let h' := {| HandlerKey := HandlerKey h; keyRegex := re;
                   Handler := Handler h |} in
      match err with
      | Some e => (h' :: rest, Some e)
      | None => let '(rest', err') := compileHandlers rest in
                (h' :: rest', err')
      end
  end.

Definition userAgent_of (h : clientHeader) : string :=
  "WebPA-1.6(" +:+ firmwareName h +:+ ";" +:+ modelName h +:+ "/"
    +:+ manufacturer h +:+ ";)".

End Shared.

(** ** The current client, [kratos.go] *)

Module Kratos.

Definition writeWait : Z := 10.
Definition pongWait : Z := 300.
Definition pingPeriod : Z := (pongWait * 9) / 10.
Definition maxMessageSize : Z := 2048.

(** [pingHandler]; its [stop] channel lives in the state of the watchdog
    model below. *)
Record pingHandler := mkPingHandler {
  conn : Conn;
  handlePingMiss : option HandlePingMiss
}.

(** [client], without its logger; the field [pingHandler] of the source is
    [client_pingHandler] here. *)
Record client := mkClient_ {
  deviceID : string;
  userAgent : string;
  deviceProtocols : string;
  hostname : string;
  handlers : list HandlerRegistry;
  connection : Conn;
  headerInfo : clientHeader;
  client_pingHandler : pingHandler
}.

Definition Hostname (c : client) : string := hostname c.

Section WithExternals.

Variable E : Externals.

(** The TLS block of [createConnection]: the HTTP client and the dialer keep
    their zero values unless both files are named. *)
Definition tls_setup (crtFile keyFile : string)
  : (http_Client * Dialer) * option error :=
  if bool_decide (crtFile ≠ "") && bool_decide (keyFile ≠ "") then
    match tls_LoadX509KeyPair E crtFile keyFile with
    | Some err => ({| Transport := None |}, Dialer_zero, Some err)
    | None =>
        let tlsConfig := {| crtFile := crtFile; keyFile := keyFile |} in
        ({| Transport := Some {| DialTimeout := 30; KeepAlive := 300;
                                 TLSHandshakeTimeout := 5;
                                 Transport_TLSClientConfig := tlsConfig |} |},
         {| TLSClientConfig := Some tlsConfig; HandshakeTimeout := 10;
            ReadBufferSize := 65535; WriteBufferSize := 65535 |},
         None)
    end
  else ({| Transport := None |}, Dialer_zero, None).

(** The request [createConnection] sends: only the device name is set on it. *)
Definition discovery_request (headerInfo : clientHeader) (req : http.Request)
  : http.Request :=
  {| http.Method := http.Method req; http.URL := http.URL req;
     http.Request_Header :=
       http.Header_Set "X-Webpa-Device-Name" (deviceName headerInfo)
                       (http.Request_Header req);
     http.Close := http.Close req |}.

(** The connect URL inside the redirect branch: from the [Location] of the
    response when it has one, of its prior response otherwise. *)
Definition redirect_wsURL (resp prior : http.Response) : string :=
  let location := http.Header_Get (http.Response_Header resp) "Location" in
  if bool_decide (location ≠ "") then
    strings.Replace location "http" "ws" 1 +:+ "/api/v2/device"
  else
    let location := http.Header_Get (http.Response_Header prior) "Location" in
    strings.Replace location "http" "ws" 1 +:+ "/api/v2/device".

(** [createConnection] from the answer of the discovery request on. *)
Definition after_discovery (dialer : Dialer) (headers : http.Header)
    (resp : option http.Response) (err : option error)
  : M (option Conn * string * option error) :=
  match err with
  | Some e => ret (None, "", Some e)
  | None =>
  match resp with
  | None => panic nil_dereference           (* resp.Body on a nil resp *)
  | Some resp =>
  match http.Request_Response resp with
  | None => ret (None, "", Some (errors_New "Petasos response is nil!"))
  | Some prior =>
  if (http.StatusCode resp =? http.StatusTemporaryRedirect)
     || (http.StatusCode prior =? http.StatusTemporaryRedirect) then
    let wsURL := redirect_wsURL resp prior in
    let* (cr, err) :=
      call (EvDial dialer wsURL headers)
           (fun _ => dialer_Dial E dialer wsURL headers) in
    let (connection, resp) := cr : option Conn * option http.Response in
    match err with
    | Some e => ret (None, "", Some e)
    | None =>
    match resp with
    | None => ret (None, "", None)        (* return nil, "", err with a nil err *)
    | Some _ => ret (connection, wsURL, None)
    end end
  else
    ret (None, "",
         Some (createError E resp
                 (errors_New "Received invalid response from petasos!")))
  end end end.

(** [createConnection].  The error of [http.NewRequest] is overwritten
    unread, so a nil request is dereferenced; [req.Close] is set after the
    request was sent and changes nothing that is sent. *)
Definition createConnection (headerInfo : clientHeader)
    (httpURL crtFile keyFile : string)
  : M (option Conn * string * option error) :=
  match device_ParseID E (deviceName headerInfo) with
  | Some err => ret (None, "", Some err)
  | None =>
  let headers := identity_headers headerInfo in
  match tls_setup crtFile keyFile with
  | (_, Some err) => ret (None, "", Some err)
  | ((client, dialer), None) =>
  match http_NewRequest E "GET" httpURL with
  | (None, _) => panic nil_dereference      (* req.Header on a nil req *)
  | (Some req, _) =>
  let req := discovery_request headerInfo req in
  let* (resp, err) := call (EvDo client req) (fun _ => client_Do E client req) in
  after_discovery dialer headers resp err
  end end end.

(** The pong handler [New] installs: every pong extends the read
    deadline. *)
Definition pongHandler (c : Conn) : M (option error) :=
  call (EvSetReadDeadline c pongWait) (fun _ => tt) ;;; ret None.

(** [go myPingMissHandler.checkPing(newClient)]: the goroutine starts,
    makes its timer and waits in its [select]. *)
Definition go_checkPing_start : M unit :=
  call (EvGo go_checkPing) (fun _ => tt) ;;;
  modify (set_pingTimer timer_armed) ;;;
  modify (set_watchdog in_select).

(** [New].  The loop over the handlers writes the compiled patterns into
    the registrations of the new client, which are those of the factory. *)
Definition New (f : ClientFactory) : M (option client * option error) :=
  let inHeader := inHeader_of f in
  let* (cu, err) := createConnection inHeader (DestinationURL f) (CRT f) (Key f) in
  let (newConnection, connectionURL) := cu : option Conn * string in
  match err with
  | Some e => ret (None, Some e)
  | None =>
  match newConnection with
  | None => panic nil_dereference     (* SetReadLimit on a nil *Conn *)
  | Some newConnection =>
  call (EvSetReadLimit newConnection maxMessageSize) (fun _ => tt) ;;;
  call (EvSetReadDeadline newConnection pongWait) (fun _ => tt) ;;;
  call (EvSetPongHandler newConnection) (fun _ => tt) ;;;
  (* the slicing of connectionURL is commented out in this revision *)
  modify (set_stop chan_open) ;;;      (* stop: make(chan bool) *)
  let myPingMissHandler := {| conn := newConnection;
                              handlePingMiss := Factory_HandlePingMiss f |} in
  let (handlers', err) := compileHandlers E (Handlers f) in
  let newClient := {| deviceID := deviceName inHeader;
                      userAgent := userAgent_of inHeader;
                      deviceProtocols := "TODO-what-to-put-here";
                      hostname := connectionURL;
                      handlers := handlers';
                      connection := newConnection;
                      headerInfo := inHeader;
                      client_pingHandler := myPingMissHandler |} in
  match err with
  | Some e => ret (None, Some e)
  | None =>
      go_checkPing_start ;;;
      call (EvGo go_read) (fun _ => tt) ;;;
      ret (Some newClient, None)
  end end end.

(** *** The keepalive watchdog *)

(** The cases of the [select] in [checkPing]. *)
Inductive select_case := case_stop | case_pingTimer.

(** One pass of the loop of [checkPing] for the case the [select] took;
    [true] when the pass ends in [return]. *)
Definition checkPing_pass (pmh : pingHandler) (c : select_case) : M bool :=
  match c with
  | case_stop =>
      call (EvWriteMessage (conn pmh) websocket.CloseMessage "")
           (fun t => conn_WriteMessage E t (conn pmh) websocket.CloseMessage "") ;;;
      ret true
  | case_pingTimer =>
      call (EvSetWriteDeadline (conn pmh) writeWait) (fun _ => tt) ;;;
      let* err := call (EvWriteMessage (conn pmh) websocket.PingMessage "")
                       (fun t => conn_WriteMessage E t (conn pmh)
                                   websocket.PingMessage "") in
      match err with
      | Some _ => ret true
      | None => ret false
      end
  end.

(** [close(ch)] on the stop channel. *)
Definition close_stop : M unit :=
  fun w => match stop w with
           | chan_open => (Return tt, set_stop chan_closed w)
           | chan_closed => (Panic "close of closed channel", w)
           | chan_nil => (Panic "close of nil channel", w)
           end.

(** The deferred function of [checkPing]. *)
Definition checkPing_deferred (pmh : pingHandler) : M unit :=
  modify (set_pingTimer timer_idle) ;;;                    (* pingTimer.Stop() *)
  call (EvClose (conn pmh)) (fun t => conn_Close E t (conn pmh)) ;;;
  close_stop.

(** The watchdog is woken in its [select] by case [c] and runs until it
    waits again or leaves the loop. *)
Definition checkPing_wake (pmh : pingHandler) (c : select_case) : M unit :=
  let* returned := checkPing_pass pmh c in
  modify (set_watchdog (if returned : bool then returning else in_select)).

(** The period of the timer passes.  A running timer fires; a watchdog
    waiting in its [select] receives the value at once.  The timer is
    never reset, so it is idle afterwards. *)
Definition elapse (pmh : pingHandler) : M unit :=
  fun w => match pingTimer w with
           | timer_armed =>
               match watchdog w with
               | in_select =>
                   (modify (set_pingTimer timer_idle) ;;;
                    checkPing_wake pmh case_pingTimer) w
               | _ => (Return tt, set_pingTimer timer_fired w)
               end
           | _ => (Return tt, w)
           end.

(** The watchdog goroutine, out of its loop, runs its deferred calls. *)
Definition resume (pmh : pingHandler) : M unit :=
  fun w => match watchdog w with
           | returning =>
               (checkPing_deferred pmh ;;; modify (set_watchdog finished)) w
           | _ => (Return tt, w)
           end.

(** [pmh.stop <- true] on the unbuffered channel: a panic on a closed
    channel; a rendezvous with a watchdog waiting in its [select], which
    then runs its stop case; and no return when nobody receives. *)
Definition stopPingHandler (pmh : pingHandler) : M unit :=
  fun w => match stop w with
           | chan_closed => (Panic "send on closed channel", w)
           | chan_nil => (Pending, w)
           | chan_open =>
               match watchdog w with
               | in_select => checkPing_wake pmh case_stop w
               | _ => (Pending, w)
               end
           end.

(** [Close]: the stop signal, then the nil [err]. *)
Definition Close (c : client) : M (option error) :=
  stopPingHandler (client_pingHandler c) ;;; ret None.

(** *** The read loop *)

(** The loop of [read] over [c.handlers], in index order.  A call of
    [HandleMessage] is taken to return. *)
Fixpoint dispatch (handlers : list HandlerRegistry) (wrpData : wrp_Message)
  : M unit :=
  match handlers with
  | [] => ret tt
  | h :: rest =>
      match keyRegex h with
      | None => panic nil_dereference     (* MatchString on a nil *Regexp *)
      | Some re =>
          (if MatchString re (Destination wrpData)
           then call (EvHandleMessage (Handler h) wrpData) (fun _ => tt)
           else ret tt) ;;;
          dispatch rest wrpData
      end
  end.

(** The [for] loop of [read]: at most [fuel] frames are received, and the
    loop is still pending when the fuel is used up. *)
Fixpoint read_loop (fuel : nat) (c : client) : M (option error) :=
  match fuel with
  | O => fun w => (Pending, w)
  | S fuel' =>
      let* (ms, err) := call (EvReadMessage (connection c))
                             (fun t => conn_ReadMessage E t (connection c)) in
      let serverMessage := snd (ms : Z * string) in
      match err with
      | Some e => ret (Some e)
      | None =>
          let (wrpData, err) := wrp_Decode E serverMessage in
          match err with
          | Some e => ret (Some e)
          | None => dispatch (handlers c) wrpData ;;; read_loop fuel' c
          end
      end
  end.

(** [read]: the loop under [defer c.connection.Close()]. *)
Definition read (fuel : nat) (c : client) : M (option error) :=
  defer (read_loop fuel c)
        (call (EvClose (connection c)) (fun t => conn_Close E t (connection c)) ;;;
         ret tt).

(** *** The client and its watchdog under a schedule

    What happens around the watchdog, one stimulus at a time: the period of
    the timer passes, the watchdog goroutine is scheduled after it left its
    loop, some goroutine calls [Close], the peer answers a probe. *)
Inductive stimulus := Elapse | Resume | CallClose | Pong.

Definition react (c : client) (s : stimulus) : M unit :=
  match s with
  | Elapse => elapse (client_pingHandler c)
  | Resume => resume (client_pingHandler c)
  | CallClose => Close c ;;; ret tt
  | Pong => pongHandler (connection c) ;;; ret tt
  end.

(** The outcome of each stimulus in turn.  A call that stays pending stops
    its own goroutine only; a panic ends the process. *)
Fixpoint system (c : client) (schedule : list stimulus) (w : World)
  : list (outcome unit) * World :=
  match schedule with
  | [] => ([], w)
  | s :: rest =>
      match react c s w with
      | (Panic r, w') => ([Panic r], w')
      | (o, w') => let (os, w'') := system c rest w' in (o :: os, w'')
      end
  end.

(** *** The send path *)

Section Send.

(** The codec: what [Encode] leaves in the buffer, and its error. *)
Context {Any : Type} (wrp_Encode : Any -> string * option error).

Definition Send (c : client) (message : Any) : M (option error) :=
  let (buffer, err) := wrp_Encode message in
  match err with
  | None =>
      call (EvWriteMessage (connection c) websocket.BinaryMessage buffer)
           (fun t => conn_WriteMessage E t (connection c)
                       websocket.BinaryMessage buffer)
  | Some e => ret (Some e)
  end.

End Send.

End WithExternals.

End Kratos.

(** ** The earlier revision of the client

    The second copy of the file in the repository, from before the slicing
    of the connect URL was commented out.  It differs in [New],
    [createConnection], [Close] and the watchdog, which are modelled here;
    [Send], [read] (without its deferred [Close]) and [createError] have the
    same text as in [kratos.go].  [createConnection] stores its TLS
    configuration in the shared [websocket.DefaultDialer]; the model keeps
    it for the one call. *)

Module Legacy.

Definition writeWait : Z := 10.
Definition pingWait : Z := 300.

Record pingMissHandler := mkPingMissHandler {
  handlePingMiss : option HandlePingMiss
}.

Record client := mkClient_ {
  deviceID : string;
  userAgent : string;
  deviceProtocols : string;
  hostname : string;
  handlers : list HandlerRegistry;
  connection : Conn;
  headerInfo : clientHeader;
  client_pingHandler : pingMissHandler
}.

Definition Hostname (c : client) : string := hostname c.

(** The slice expression [s[lo:hi]] with its bounds check. *)
Definition slice (s : string) (lo hi : Z) : M string :=
  if (0 <=? lo) && (lo <=? hi) && (hi <=? Z.of_nat (String.length s)) then
    ret (String.substring (Z.to_nat lo) (Z.to_nat (hi - lo)) s)
  else panic "slice bounds out of range".

Section WithExternals.

Variable E : Externals.

(** [websocket.DefaultDialer], with the TLS configuration
    [createConnection] may have stored in it. *)
Definition DefaultDialer (tls : option Certificate) : Dialer :=
  {| TLSClientConfig := tls; HandshakeTimeout := 45;
     ReadBufferSize := 0; WriteBufferSize := 0 |}.

Definition createConnection (headerInfo : clientHeader)
    (httpURL crtFile keyFile : string)
  : M (option Conn * string * option error) :=
  match device_ParseID E (deviceName headerInfo) with
  | Some err => ret (None, "", Some err)
  | None =>
  let headers := identity_headers headerInfo in
  let tls : (http_Client * option Certificate) * option error :=
    if bool_decide (crtFile ≠ "") && bool_decide (keyFile ≠ "") then
      match tls_LoadX509KeyPair E crtFile keyFile with
      | Some err => ({| Transport := None |}, None, Some err)
      | None =>
          let tlsConfig := {| crtFile := crtFile; keyFile := keyFile |} in
          ({| Transport := Some {| DialTimeout := 0; KeepAlive := 0;
                                   TLSHandshakeTimeout := 0;
                                   Transport_TLSClientConfig := tlsConfig |} |},
           Some tlsConfig, None)
      end
    else ({| Transport := None |}, None, None) in
  match tls with
  | (_, Some err) => ret (None, "", Some err)
  | ((client, dialerTLS), None) =>
  match http_NewRequest E "GET" httpURL with
  | (None, _) => panic nil_dereference
  | (Some req, _) =>
  let req := {| http.Method := http.Method req; http.URL := http.URL req;
                http.Request_Header :=
                  http.Header_Set "X-Webpa-Device-Name" (deviceName headerInfo)
                                  (http.Request_Header req);
                http.Close := http.Close req |} in
  let* (resp, err) := call (EvDo client req) (fun _ => client_Do E client req) in
  match err with
  | Some e => ret (None, "", Some e)
  | None =>
  match resp with
  | None => panic nil_dereference
  | Some resp =>
  if http.StatusCode resp =? http.StatusTemporaryRedirect then
    let wsURL :=
      strings.Replace (http.Header_Get (http.Response_Header resp) "Location")
                      "http" "ws" 1 +:+ "/api/v2/device" in
    let* (cr, _) :=
      call (EvDial (DefaultDialer dialerTLS) wsURL headers)
           (fun _ => dialer_Dial E (DefaultDialer dialerTLS) wsURL headers) in
    (* the error of the dial is dropped *)
    ret (fst (cr : option Conn * option http.Response), wsURL, None)
  else
    ret (None, "",
         Some (createError E resp
                 (errors_New "Received invalid response from petasos!")))
  end end end end end.

Definition go_checkPing_start : M unit :=
  call (EvGo go_checkPing) (fun _ => tt) ;;;
  modify (set_watchdog in_select).

Definition New (f : ClientFactory) : M (option client * option error) :=
  let inHeader := inHeader_of f in
  let* (cu, err) := createConnection inHeader (DestinationURL f) (CRT f) (Key f) in
  let (newConnection, connectionURL) := cu : option Conn * string in
  match err with
  | Some e => ret (None, Some e)
  | None =>
  match newConnection with
  | None => panic nil_dereference     (* SetPingHandler on a nil *Conn *)
  | Some newConnection =>
  call (EvSetPingHandler newConnection) (fun _ => tt) ;;;
  let* connectionURL :=
    slice connectionURL (Z.of_nat (String.length "ws://"))
          (strings.LastIndex connectionURL ":") in
  modify (set_stop chan_open) ;;;
  let myPingMissHandler := {| handlePingMiss := Factory_HandlePingMiss f |} in
  let (handlers', err) := compileHandlers E (Handlers f) in
  let newClient := {| deviceID := deviceName inHeader;
                      userAgent := userAgent_of inHeader;
                      deviceProtocols := "TODO-what-to-put-here";
                      hostname := connectionURL;
                      handlers := handlers';
                      connection := newConnection;
                      headerInfo := inHeader;
                      client_pingHandler := myPingMissHandler |} in
  match err with
  | Some e => ret (None, Some e)
  | None =>
      modify (set_pingTimer timer_armed) ;;;     (* time.NewTimer(pingWait) *)
      go_checkPing_start ;;;
      call (EvGo go_read) (fun _ => tt) ;;;
      ret (Some newClient, None)
  end end end.

(** *** The watchdog of the earlier revision *)

Inductive select_case := case_stop | case_inTimer | case_pinged.

(** One pass of the loop [for !pingMiss { select ... }]; [true] when the
    pass sets [pingMiss]. *)
Definition checkPing_pass (pmh : pingMissHandler) (c : select_case) : M bool :=
  match c with
  | case_stop => ret true
  | case_inTimer =>
      match handlePingMiss pmh with
      | None => panic nil_dereference        (* a call of a nil func *)
      | Some f => call EvHandlePingMiss f ;;; ret false
      end
  | case_pinged =>
      (* if !inTimer.Stop() { <-inTimer.C }; inTimer.Reset(pingWait) *)
      fun w => match pingTimer w with
               | timer_armed => (Return false, set_pingTimer timer_armed w)
               | timer_fired => (Return false, set_pingTimer timer_armed w)
               | timer_idle => (Pending, set_watchdog draining w)
               end
  end.

Definition checkPing_wake (pmh : pingMissHandler) (c : select_case) : M unit :=
  let* pingMiss := checkPing_pass pmh c in
  modify (set_watchdog (if pingMiss : bool then returning else in_select)).

Definition close_stop : M unit :=
  fun w => match stop w with
           | chan_open => (Return tt, set_stop chan_closed w)
           | chan_closed => (Panic "close of closed channel", w)
           | chan_nil => (Panic "close of nil channel", w)
           end.

Definition stopPingHandler (pmh : pingMissHandler) : M unit :=
  fun w => match stop w with
           | chan_closed => (Panic "send on closed channel", w)
           | chan_nil => (Pending, w)
           | chan_open =>
               match watchdog w with
               | in_select => checkPing_wake pmh case_stop w
               | _ => (Pending, w)
               end
           end.

Definition Close (c : client) : M (option error) :=
  stopPingHandler (client_pingHandler c) ;;;
  call (EvClose (connection c)) (fun t => conn_Close E t (connection c)).

(** The deferred calls of [checkPing], last deferred first:
    [close(pmh.stop)], then [inClient.Close()]. *)
Definition checkPing_deferred (c : client) : M unit :=
  close_stop ;;; Close c ;;; ret tt.

Definition elapse (pmh : pingMissHandler) : M unit :=
  fun w => match pingTimer w with
           | timer_armed =>
               match watchdog w with
               | in_select =>
                   (modify (set_pingTimer timer_idle) ;;;
                    checkPing_wake pmh case_inTimer) w
               | _ => (Return tt, set_pingTimer timer_fired w)
               end
           | _ => (Return tt, w)
           end.

Definition resume (c : client) : M unit :=
  fun w => match watchdog w with
           | returning =>
               (checkPing_deferred c ;;; modify (set_watchdog finished)) w
           | _ => (Return tt, w)
           end.

(** The ping handler [New] installs, run for a ping frame of the peer:
    [pinged <- appData] on the unbuffered channel, then the pong. *)
Definition pingHandler (c : client) (appData : string) : M (option error) :=
  (fun w => match watchdog w with
            | in_select =>
                match checkPing_wake (client_pingHandler c) case_pinged w with
                | (Pending, w') => (Return tt, w')   (* the value was received *)
                | r => r
                end
            | _ => (Pending, w)
            end) ;;;
  call (EvWriteControl (connection c) websocket.PongMessage appData writeWait)
       (fun t => conn_WriteControl E t (connection c) websocket.PongMessage appData).

(** The earlier client under a schedule; [Pinged] is a ping frame of the
    peer, handled by [pingHandler]. *)
Inductive stimulus := Elapse | Resume | CallClose | Pinged (appData : string).

Definition react (c : client) (s : stimulus) : M unit :=
  match s with
  | Elapse => elapse (client_pingHandler c)
  | Resume => resume c
  | CallClose => Close c ;;; ret tt
  | Pinged appData => pingHandler c appData ;;; ret tt
  end.

Fixpoint system (c : client) (schedule : list stimulus) (w : World)
  : list (outcome unit) * World :=
  match schedule with
  | [] => ([], w)
  | s :: rest =>
      match react c s w with
      | (Panic r, w') => ([Panic r], w')
      | (o, w') => let (os, w'') := system c rest w' in (o :: os, w'')
      end
  end.

End WithExternals.

End Legacy.

(** ** Scripted peers

    Concrete libraries and peers, to run the model on. *)

Module Scenario.

(** The double quote of JSON text. *)
Definition dq : string := String (Ascii.ascii_of_nat 34) EmptyString.

(** The body [{"code":404,"message":"not found"}]. *)
Definition body_not_found : string :=
  "{" +:+ dq +:+ "code" +:+ dq +:+ ":404," +:+ dq +:+ "message" +:+ dq +:+ ":"
      +:+ dq +:+ "not found" +:+ dq +:+ "}".

(** The answer of a successful upgrade. *)
Definition upgrade : http.Response :=
  {| http.StatusCode := 101; http.Response_Header := ∅; http.Body := "";
     http.Request_Response := None |}.

(** The [n]-th answer of the transport to [ReadMessage], [n] counted by the
    reads in the trace: the frames in turn, then an error. *)
Definition reads_so_far (t : list Event) : nat :=
  length (List.filter (fun ev => match ev with EvReadMessage _ => true | _ => false end) t).

Definition scripted_read (frames : list string) (t : list Event)
  : Z * string * option error :=
  match frames !! reads_so_far t with
  | Some frame => (websocket.BinaryMessage, frame, None)
  | None => (-1, "", Some (errors_New "unexpected EOF"))
  end.

(** Device names start with [mac:]; every pattern but an open parenthesis
    compiles, to a search for its text; the decoder knows [body_not_found]
    and leaves the message alone on any other body; a frame decodes to a
    message whose destination is the text of the frame. *)
Definition externals (discovery : option http.Response * option error)
    (frames : list string) (write_err : option error) : Externals :=
  {| device_ParseID := fun id =>
       if String.prefix "mac:" id then None
       else Some (errors_New "invalid device id");
     tls_LoadX509KeyPair := fun _ _ => None;
     url_Parse := fun _ => None;
     client_Do := fun _ _ => discovery;
     dialer_Dial := fun _ _ _ => (Some 7%nat, Some upgrade, None);
     regexp_Compile := fun p =>
       if decide (p = "(") then (None, Some (errors_New "missing closing )"))
       else (Some {| expr := p; MatchString := fun s => 0 <=? strings.Index s p |},
             None);
     json_Unmarshal := fun data msg =>
       if decide (data = body_not_found)
       then {| Code := 404; Msg := "not found" |} else msg;
     wrp_Decode := fun frame =>
       ({| Source := "peer"; Destination := frame; TransactionUUID := "";
           Payload := "" |}, None);
     conn_ReadMessage := fun t _ => scripted_read frames t;
     conn_WriteMessage := fun _ _ _ _ => write_err;
     conn_WriteControl := fun _ _ _ _ => write_err;
     conn_Close := fun _ _ => None |}.

(** A response with a [Location] header. *)
Definition response (status : Z) (location body : string)
    (prior : option http.Response) : http.Response :=
  {| http.StatusCode := status;
     http.Response_Header :=
       if decide (location = "") then ∅ else http.Header_Set "Location" location ∅;
     http.Body := body;
     http.Request_Response := prior |}.

(** The redirect of the claim, [307] with [Location: http://host:1234/path],
    as the HTTP layer reports it after following it: the answer of the
    redirect target, with the redirect as its prior response. *)
Definition redirect : http.Response :=
  response 307 "http://host:1234/path" "" None.
Definition followed_redirect : http.Response :=
  response 200 "" "" (Some redirect).

(** The same for any [Location] the HTTP layer can follow: the [307] that
    names it, and the answer of its target with that [307] as its prior
    response. *)
Definition redirect_to (location : string) : http.Response :=
  response 307 location "" None.
Definition followed (location : string) : http.Response :=
  response 200 "" "" (Some (redirect_to location)).

Definition factory (name : string) (patterns : list string) : ClientFactory :=
  {| DeviceName := name; FirmwareName := "fw-1.0"; ModelName := "model";
     Manufacturer := "maker"; DestinationURL := "http://petasos:6400/";
     CRT := ""; Key := "";
     Handlers := imap (fun i p => {| HandlerKey := p; keyRegex := None;
                                     Handler := i |}) patterns;
     Factory_HandlePingMiss := Some (fun _ => None) |}.

(** An encoder that refuses a message without destination and encodes any
    other message as the text of its destination. *)
Definition encode (message : wrp_Message) : string * option error :=
  if decide (Destination message = "")
  then ("", Some (errors_New "wrp: no destination"))
  else (Destination message, None).

Definition device : string := "mac:112233445566".

(** The peer that redirects, then delivers the frames [/foo/bar] and [zzz]. *)
Definition E_ok : Externals :=
  externals (Some followed_redirect, None) ["/foo/bar"; "zzz"] None.

(** The same peer with a transport that fails every write. *)
Definition E_dead : Externals :=
  externals (Some followed_redirect, None) []
            (Some (errors_New "write: broken pipe")).

(** A [307] that names no [Location]: the HTTP layer has nothing to follow
    and hands the response back as it is, the first of its exchange, with
    no prior response. *)
Definition bare_redirect : http.Response := response 307 "" "" None.

Definition E_bare : Externals :=
  externals (Some bare_redirect, None) [] None.

(** The redirect is followed and the answer of its target carries a
    [Location] of its own. *)
Definition E_final_location : Externals :=
  externals (Some (response 200 "http://other:1/x" "" (Some redirect)), None)
            [] None.

Definition f_ok : ClientFactory := factory device ["/foo"; "zzz"; "a"].
Definition f_bad_pattern : ClientFactory := factory device ["/foo"; "("].
Definition f_bad_name : ClientFactory := factory "112233445566" ["/foo"].

(** The client [New] builds from [f_ok] on connection [7]. *)
Definition client_ok : Kratos.client :=
  {| Kratos.deviceID := device;
     Kratos.userAgent := userAgent_of (inHeader_of f_ok);
     Kratos.deviceProtocols := "TODO-what-to-put-here";
     Kratos.hostname := "ws://host:1234/path/api/v2/device";
     Kratos.handlers := fst (compileHandlers E_ok (Handlers f_ok));
     Kratos.connection := 7%nat;
     Kratos.headerInfo := inHeader_of f_ok;
     Kratos.client_pingHandler :=
       {| Kratos.conn := 7%nat; Kratos.handlePingMiss := Some (fun _ => None) |} |}.

(** The world [New] leaves behind when it started the watchdog. *)
Definition started_world : World :=
  {| trace := []; stop := chan_open; pingTimer := timer_armed;
     watchdog := in_select |}.

Definition message_to (destination : string) : wrp_Message :=
  {| Source := "peer"; Destination := destination; TransactionUUID := "";
     Payload := "" |}.

(** A discovery answered [404] with an empty body, after a [302] that the
    HTTP layer followed. *)
Definition not_found : http.Response :=
  response 404 "" "" (Some (response 302 "http://elsewhere:6400/" "" None)).

Definition E_not_found : Externals := externals (Some not_found, None) [] None.

(** A discovery answered [523] with an empty body, with no redirect before. *)
Definition E_busy : Externals :=
  externals (Some (response 523 "" "" None), None) [] None.

(** The client of the earlier revision on the same connection. *)
Definition legacy_client_ok : Legacy.client :=
  {| Legacy.deviceID := device;
     Legacy.userAgent := userAgent_of (inHeader_of f_ok);
     Legacy.deviceProtocols := "TODO-what-to-put-here";
     Legacy.hostname := "host";
     Legacy.handlers := fst (compileHandlers E_ok (Handlers f_ok));
     Legacy.connection := 7%nat;
     Legacy.headerInfo := inHeader_of f_ok;
     Legacy.client_pingHandler :=
       {| Legacy.handlePingMiss := Some (fun _ => None) |} |}.

End Scenario.

(** ** Peers and libraries that fail *)

Module Faults.

(** [E] with another certificate loader, URL parser and dialer. *)
Definition with_libraries (E : Externals)
    (load : string -> string -> option error)
    (parse : string -> option error)
    (dial : Dialer -> string -> http.Header ->
            option Conn * option http.Response * option error) : Externals :=
  {| device_ParseID := device_ParseID E;
     tls_LoadX509KeyPair := load;
     url_Parse := parse;
     client_Do := client_Do E;
     dialer_Dial := dial;
     regexp_Compile := regexp_Compile E;
     json_Unmarshal := json_Unmarshal E;
     wrp_Decode := wrp_Decode E;
     conn_ReadMessage := conn_ReadMessage E;
     conn_WriteMessage := conn_WriteMessage E;
     conn_WriteControl := conn_WriteControl E;
     conn_Close := conn_Close E |}.

(** No key pair loads. *)
Definition E_bad_certificate : Externals :=
  with_libraries Scenario.E_ok
    (fun _ _ => Some (errors_New "tls: failed to find any PEM data"))
    (url_Parse Scenario.E_ok) (dialer_Dial Scenario.E_ok).

(** No URL parses. *)
Definition E_bad_URL : Externals :=
  with_libraries Scenario.E_ok (tls_LoadX509KeyPair Scenario.E_ok)
    (fun _ => Some (errors_New "parse: invalid URL"))
    (dialer_Dial Scenario.E_ok).

(** Every upgrade is refused. *)
Definition E_refused : Externals :=
  with_libraries Scenario.E_ok (tls_LoadX509KeyPair Scenario.E_ok)
    (url_Parse Scenario.E_ok)
    (fun _ _ _ => (None, None, Some (errors_New "websocket: bad handshake"))).

(** The discovery service cannot be reached. *)
Definition E_unreachable : Externals :=
  Scenario.externals (None, Some (errors_New "dial tcp: connection refused"))
                     [] None.

(** [f] with other certificate and key files. *)
Definition with_files (f : ClientFactory) (crt key : string) : ClientFactory :=
  {| DeviceName := DeviceName f; FirmwareName := FirmwareName f;
     ModelName := ModelName f; Manufacturer := Manufacturer f;
     DestinationURL := DestinationURL f; CRT := crt; Key := key;
     Handlers := Handlers f;
     Factory_HandlePingMiss := Factory_HandlePingMiss f |}.

(** A dialer that, like the library's, refuses a URL whose scheme is
    neither [ws] nor [wss] and returns no connection for it. *)
Definition dial_by_scheme (_ : Dialer) (urlStr : string) (_ : http.Header)
  : option Conn * option http.Response * option error :=
  if String.prefix "ws://" urlStr || String.prefix "wss://" urlStr
  then (Some 7%nat, Some Scenario.upgrade, None)
  else (None, None, Some (errors_New "malformed ws or wss URL")).

(** The service answers with a [307] that names no [Location], and the
    dialer looks at the scheme. *)
Definition E_bare_refused : Externals :=
  with_libraries Scenario.E_bare (tls_LoadX509KeyPair Scenario.E_bare)
    (url_Parse Scenario.E_bare) dial_by_scheme.

End Faults.

(** ** A codec that fails *)

Module Codec.

(** [E] with another frame decoder. *)
Definition with_decoder (E : Externals)
    (decode : string -> wrp_Message * option error) : Externals :=
  {| device_ParseID := device_ParseID E;
     tls_LoadX509KeyPair := tls_LoadX509KeyPair E;
     url_Parse := url_Parse E;
     client_Do := client_Do E;
     dialer_Dial := dialer_Dial E;
     regexp_Compile := regexp_Compile E;
     json_Unmarshal := json_Unmarshal E;
     wrp_Decode := decode;
     conn_ReadMessage := conn_ReadMessage E;
     conn_WriteMessage := conn_WriteMessage E;
     conn_WriteControl := conn_WriteControl E;
     conn_Close := conn_Close E |}.

(** The scripted peer with a decoder that refuses the frame [garbage]. *)
Definition E_garbage : Externals :=
  with_decoder
    (Scenario.externals (Some Scenario.followed_redirect, None)
                        ["/foo/bar"; "garbage"; "zzz"] None)
    (fun frame =>
       if decide (frame = "garbage")
       then (Scenario.message_to "", Some (errors_New "msgpack: invalid code"))
       else (Scenario.message_to frame, None)).

End Codec.

(** ** Reading a trace *)

(** The URLs dialed, the discovery requests sent, the goroutines started and
    the calls of the miss callback, each in the order of the trace. *)
Definition dialed (t : list Event) : list string :=
  omap (fun ev => match ev with EvDial _ wsURL _ => Some wsURL | _ => None end) t.

Definition requests (t : list Event) : list http.Request :=
  omap (fun ev => match ev with EvDo _ req => Some req | _ => None end) t.

Definition started (t : list Event) : list goroutine :=
  omap (fun ev => match ev with EvGo g => Some g | _ => None end) t.

Definition is_miss (ev : Event) : bool :=
  match ev with EvHandlePingMiss => true | _ => false end.

Definition misses (t : list Event) : nat := length (List.filter is_miss t).

(** The calls of [Close] in a schedule that returned, given the outcome of
    each stimulus. *)
Definition returned_closes (schedule : list Kratos.stimulus)
    (outcomes : list (outcome unit)) : nat :=
  length (List.filter
            (fun so : Kratos.stimulus * outcome unit =>
               match so with
               | (Kratos.CallClose, Return _) => true
               | _ => false
               end)
            (zip schedule outcomes)).

(** The probes written to the peer. *)
Definition is_ping (ev : Event) : bool :=
  match ev with
  | EvWriteMessage _ messageType _ => messageType =? websocket.PingMessage
  | _ => false
  end.

Definition pings (t : list Event) : nat := length (List.filter is_ping t).

(** The events [read] may add: reads of the connection and calls of the
    handlers. *)
Definition is_read_or_handle (c : Conn) (ev : Event) : bool :=
  match ev with
  | EvReadMessage c' => bool_decide (c' = c)
  | EvHandleMessage _ _ => true
  | _ => false
  end.

(** A registration with its pattern compiled into it. *)
Definition compiled (E : Externals) (h : HandlerRegistry) : HandlerRegistry :=
  {| HandlerKey := HandlerKey h;
     keyRegex := fst (regexp_Compile E (HandlerKey h));
     Handler := Handler h |}.

(** The events with which a successful [New] ends, on connection [c]. *)
Definition New_tail (c : Conn) : list Event :=
  [EvSetReadLimit c Kratos.maxMessageSize;
   EvSetReadDeadline c Kratos.pongWait;
   EvSetPongHandler c;
   EvGo go_checkPing;
   EvGo go_read].

(** The client and the error a call of [New] returned, if it returned. *)
Definition returned_client {C : Type}
    (r : outcome (option C * option error) * World) : option C :=
  match fst r with
  | Return (c, _) => c
  | _ => None
  end.

Definition returned_error {C : Type}
    (r : outcome (option C * option error) * World) : option error :=
  match fst r with
  | Return (_, e) => e
  | _ => None
  end.

(** The request [createConnection] hands to the HTTP client: a [GET] of the
    discovery URL whose only header is the device name. *)
Definition device_name_request (headerInfo : clientHeader) (httpURL : string)
  : http.Request :=
  {| http.Method := "GET"; http.URL := httpURL;
     http.Request_Header := {[ "X-Webpa-Device-Name" := [deviceName headerInfo] ]};
     http.Close := false |}.

(** The error of the first pattern, in registration order, that the
    compiler refuses. *)
Definition first_compile_error (E : Externals) (handlers : list HandlerRegistry)
  : option error :=
  head (omap (fun h => snd (regexp_Compile E (HandlerKey h))) handlers).

(** A header set carries the four identity headers of a device. *)
Definition carries_identity (h : http.Header) (headerInfo : clientHeader) : Prop :=
  h !! "X-Webpa-Device-Name" = Some [deviceName headerInfo]
  /\ h !! "X-Webpa-Firmware-Name" = Some [firmwareName headerInfo]
  /\ h !! "X-Webpa-Model-Name" = Some [modelName headerInfo]
  /\ h !! "X-Webpa-Manufacturer" = Some [manufacturer headerInfo].

(** The [Location] the redirect branch reads: of the response when it has a
    non-empty one, of the prior response otherwise. *)
Definition redirect_location (resp prior : http.Response) : string :=
  if decide (http.Header_Get (http.Response_Header resp) "Location" = "")
  then http.Header_Get (http.Response_Header prior) "Location"
  else http.Header_Get (http.Response_Header resp) "Location".

(** A registration whose pattern the regular expression compiler refuses. *)
Definition bad_pattern (E : Externals) (h : HandlerRegistry) : Prop :=
  is_Some (snd (regexp_Compile E (HandlerKey h))).

(** What it means for a registration to match a message: its compiled
    pattern matches the destination. *)
Definition handler_matches (msg : wrp_Message) (h : HandlerRegistry) : bool :=
  match keyRegex h with
  | Some re => MatchString re (Destination msg)
  | None => false
  end.

(** The calls of [HandleMessage] a message gives rise to when every matching
    registration is called once, in registration order. *)
Definition invocations (msg : wrp_Message) (handlers : list HandlerRegistry)
  : list Event :=
  map (fun h => EvHandleMessage (Handler h) msg)
      (List.filter (handler_matches msg) handlers).

(** The handlers called in a trace, each with the message it was given, in
    the order of the calls. *)
Definition handled (t : list Event) : list (ReadHandler * wrp_Message) :=
  omap (fun ev => match ev with
                  | EvHandleMessage h msg => Some (h, msg)
                  | _ => None
                  end) t.

(** The HTTP client and the dialer the earlier [createConnection] uses for
    a certificate file and a key file: the TLS ones when both are named, the
    zero client and the default dialer when one is missing. *)
Definition legacy_http_client (crtFile keyFile : string) : http_Client :=
  if bool_decide (crtFile ≠ "") && bool_decide (keyFile ≠ "") then
    {| Transport := Some {| DialTimeout := 0; KeepAlive := 0;
                            TLSHandshakeTimeout := 0;
                            Transport_TLSClientConfig :=
                              {| crtFile := crtFile; keyFile := keyFile |} |} |}
  else {| Transport := None |}.

Definition legacy_dialer (crtFile keyFile : string) : Dialer :=
  Legacy.DefaultDialer
    (if bool_decide (crtFile ≠ "") && bool_decide (keyFile ≠ "") then
       Some {| crtFile := crtFile; keyFile := keyFile |}
     else None).

(** The URL the earlier [createConnection] dials for a [307]. *)
Definition legacy_wsURL (resp : http.Response) : string :=
  strings.Replace (http.Header_Get (http.Response_Header resp) "Location")
                  "http" "ws" 1 +:+ "/api/v2/device".

(** What a stimulus gets from the earlier client once its watchdog waits
    for a timer value that does not come: the calls that need the watchdog
    do not return. *)
Definition wedged (s : Legacy.stimulus) : outcome unit :=
  match s with
  | Legacy.CallClose | Legacy.Pinged _ => Pending
  | Legacy.Elapse | Legacy.Resume => Return tt
  end.

(** Unfolds one reaction of the current client down to the monad. *)
Ltac unfold_reaction :=
  unfold Kratos.react, Kratos.elapse, Kratos.resume, Kratos.Close,
    Kratos.stopPingHandler, Kratos.checkPing_wake, Kratos.checkPing_pass,
    Kratos.checkPing_deferred, Kratos.close_stop, Kratos.pongHandler,
    bind, call, ret, modify; simpl.

Ltac unfold_legacy_reaction :=
  unfold Legacy.react, Legacy.elapse, Legacy.resume, Legacy.Close,
    Legacy.stopPingHandler, Legacy.checkPing_wake, Legacy.checkPing_pass,
    Legacy.checkPing_deferred, Legacy.close_stop, Legacy.pingHandler,
    bind, call, ret, modify, panic; simpl.

(** * Theorems *)

(** ** The monad *)

Lemma set_trace_same w : set_trace (trace w) w = w.
Proof. destruct w; reflexivity. Qed.

Lemma set_trace_twice t t' w : set_trace t (set_trace t' w) = set_trace t w.
Proof. reflexivity. Qed.

Lemma bind_ret {A B} (a : A) (k : A -> M B) w : bind (ret a) k w = k a w.
Proof. reflexivity. Qed.

Lemma bind_call {A B} ev (answer : list Event -> A) (k : A -> M B) w :
  bind (call ev answer) k w
  = k (answer (trace w)) (set_trace (trace w ++ [ev])%list w).
Proof. reflexivity. Qed.

Lemma bind_panic {A B} r (k : A -> M B) w : bind (panic r) k w = (Panic r, w).
Proof. reflexivity. Qed.

Lemma bind_modify {B} f (k : unit -> M B) w : bind (modify f) k w = k tt (f w).
Proof. reflexivity. Qed.

(** ** C8: a bad device name stops construction before the network *)

(** C8.  When the device name fails the identifier syntax, [New] returns the
    error of the parser and leaves the world as it found it: the trace has
    no new event, so neither the discovery request nor the dial was made. *)
Theorem New_bad_deviceName_before_network (E : Externals) (f : ClientFactory)
    (err : error) (w : World) :
  device_ParseID E (DeviceName f) = Some err ->
  Kratos.New E f w = (Return (None, Some err), w).
Proof.
  intros Hparse.
  unfold Kratos.New, Kratos.createConnection, bind; simpl.
  rewrite Hparse. reflexivity.
Qed.

Lemma New_bad_deviceName_before_network_witness :
  run (Kratos.New Scenario.E_ok Scenario.f_bad_name)
  = (Return (None, Some (errors_New "invalid device id")), World_init).
Proof.
  apply (New_bad_deviceName_before_network Scenario.E_ok Scenario.f_bad_name).
  reflexivity.
Defined.

(** ** C6: the send path *)

(** C6.  [Send] encodes first.  When the encoder fails, the encode error is
    returned and the world is untouched: no write is attempted, whatever
    the transport would have answered.  When it succeeds, exactly one event
    is added, the write of the encoded bytes as one binary frame, and the
    answer of that write is returned. *)
Theorem Send_encode_then_one_write (E : Externals) {Any : Type}
    (wrp_Encode : Any -> string * option error)
    (c : Kratos.client) (message : Any) (w : World) :
  (forall buffer e, wrp_Encode message = (buffer, Some e) ->
     Kratos.Send E wrp_Encode c message w = (Return (Some e), w)) /\
  (forall buffer, wrp_Encode message = (buffer, None) ->
     Kratos.Send E wrp_Encode c message w
     = (Return (conn_WriteMessage E (trace w) (Kratos.connection c)
                                  websocket.BinaryMessage buffer),
        set_trace (trace w ++ [EvWriteMessage (Kratos.connection c)
                                              websocket.BinaryMessage buffer])%list w)).
Proof.
  split; intros * Henc; unfold Kratos.Send; rewrite Henc; reflexivity.
Qed.

Lemma Send_encode_then_one_write_witness :
  Kratos.Send Scenario.E_dead Scenario.encode Scenario.client_ok
              (Scenario.message_to "") World_init
  = (Return (Some (errors_New "wrp: no destination")), World_init)
  /\ Kratos.Send Scenario.E_dead Scenario.encode Scenario.client_ok
                 (Scenario.message_to "event:status") World_init
     = (Return (Some (errors_New "write: broken pipe")),
        set_trace [EvWriteMessage 7%nat websocket.BinaryMessage "event:status"]
                  World_init).
Proof.
  split.
  - apply (proj1 (Send_encode_then_one_write Scenario.E_dead Scenario.encode
                    Scenario.client_ok (Scenario.message_to "") World_init) "").
    reflexivity.
  - apply (proj2 (Send_encode_then_one_write Scenario.E_dead Scenario.encode
                    Scenario.client_ok (Scenario.message_to "event:status")
                    World_init) "event:status").
    reflexivity.
Defined.

(** ** C4: dispatch to every matching handler *)

Lemma dispatch_invocations (E : Externals) (msg : wrp_Message)
    (handlers : list HandlerRegistry) (w : World) :
  Forall (fun h => is_Some (keyRegex h)) handlers ->
  Kratos.dispatch handlers msg w
  = (Return tt, set_trace (trace w ++ invocations msg handlers)%list w).
Proof.
  intros Hcompiled. revert w.
  induction Hcompiled as [|h rest [re Hre] _ IH]; intros w.
  - unfold invocations; simpl. rewrite app_nil_r, set_trace_same. reflexivity.
  - simpl. rewrite Hre.
    unfold invocations, handler_matches; simpl. rewrite Hre.
    destruct (MatchString re (Destination msg)); simpl.
    + rewrite bind_call, IH. simpl.
      unfold invocations, handler_matches.
      rewrite <- app_assoc. reflexivity.
    + rewrite bind_ret, IH. reflexivity.
Qed.

(** One pass of the read loop over a frame that is received and decodes. *)
Lemma read_loop_pass (E : Externals) (c : Kratos.client)
    (fuel : nat) (w : World) (messageType : Z) (frame : string)
    (msg : wrp_Message) :
  Forall (fun h => is_Some (keyRegex h)) (Kratos.handlers c) ->
  conn_ReadMessage E (trace w) (Kratos.connection c) = (messageType, frame, None) ->
  wrp_Decode E frame = (msg, None) ->
  Kratos.read_loop E (S fuel) c w
  = Kratos.read_loop E fuel c
      (set_trace (trace w ++ EvReadMessage (Kratos.connection c)
                    :: invocations msg (Kratos.handlers c))%list w).
Proof.
  intros Hcompiled Hread Hdecode.
  simpl. rewrite bind_call, Hread. simpl. rewrite Hdecode.
  unfold bind at 1. rewrite (dispatch_invocations E msg _ _ Hcompiled).
  simpl. rewrite <- app_assoc. reflexivity.
Qed.

(** What [dispatch] adds to the trace, for any registrations: calls of
    handlers only. *)
Lemma dispatch_events (handlers : list HandlerRegistry) (msg : wrp_Message)
    (c : Conn) (w : World) :
  exists evs,
    snd (Kratos.dispatch handlers msg w) = set_trace (trace w ++ evs)%list w
    /\ forallb (is_read_or_handle c) evs = true
    /\ fst (Kratos.dispatch handlers msg w) <> Pending.
Proof.
  revert w. induction handlers as [|h rest IH]; intros w; simpl.
  - exists []. rewrite app_nil_r, set_trace_same. repeat split. discriminate.
  - destruct (keyRegex h) as [re|].
    + destruct (MatchString re (Destination msg)).
      * rewrite bind_call.
        destruct (IH (set_trace (trace w ++ [EvHandleMessage (Handler h) msg])%list w))
          as (evs & Hw & Hevs & Hfst).
        exists (EvHandleMessage (Handler h) msg :: evs).
        rewrite Hw. simpl. rewrite <- app_assoc. repeat split; assumption.
      * rewrite bind_ret. exact (IH w).
    + exists []. simpl. rewrite app_nil_r, set_trace_same. repeat split. discriminate.
Qed.

(** What the loop of [read] does, for any fuel: it adds reads of the
    connection and calls of handlers only, and when it returns it returns
    an error. *)
Lemma read_loop_events (E : Externals) (c : Kratos.client) (fuel : nat) (w : World) :
  exists evs,
    snd (Kratos.read_loop E fuel c w) = set_trace (trace w ++ evs)%list w
    /\ forallb (is_read_or_handle (Kratos.connection c)) evs = true
    /\ forall r, fst (Kratos.read_loop E fuel c w) = Return r -> is_Some r.
Proof.
  revert w. induction fuel as [|fuel IH]; intros w.
  - exists []. simpl. rewrite app_nil_r, set_trace_same. repeat split. discriminate.
  - simpl. rewrite bind_call.
    remember (set_trace (trace w ++ [EvReadMessage (Kratos.connection c)])%list w)
      as w1 eqn:Hw1eq.
    assert (forall evs, forallb (is_read_or_handle (Kratos.connection c)) evs = true ->
              forallb (is_read_or_handle (Kratos.connection c))
                      (EvReadMessage (Kratos.connection c) :: evs) = true) as Hcons.
    { intros evs Hevs. simpl. rewrite bool_decide_eq_true_2 by reflexivity.
      exact Hevs. }
    destruct (conn_ReadMessage E (trace w) (Kratos.connection c)) as [[mt frame] [e|]];
      simpl.
    + exists [EvReadMessage (Kratos.connection c)]. subst w1. repeat split.
      * apply (Hcons []). reflexivity.
      * intros r H. injection H as <-. eexists; reflexivity.
    + destruct (wrp_Decode E frame) as [msg [e|]].
      * exists [EvReadMessage (Kratos.connection c)]. subst w1. repeat split.
        -- apply (Hcons []). reflexivity.
        -- intros r H. injection H as <-. eexists; reflexivity.
      * unfold bind.
        destruct (dispatch_events (Kratos.handlers c) msg (Kratos.connection c) w1)
          as (evs1 & Hw1 & Hevs1 & Hfst1).
        destruct (Kratos.dispatch (Kratos.handlers c) msg w1) as [[[]| reason |] w2];
          simpl in Hw1, Hfst1; subst w2.
        -- destruct (IH (set_trace (trace w1 ++ evs1)%list w1))
             as (evs2 & Hw2 & Hevs2 & Hret).
           exists (EvReadMessage (Kratos.connection c) :: evs1 ++ evs2)%list.
           split; [| split].
           ++ rewrite Hw2. subst w1. simpl. rewrite <- !app_assoc. reflexivity.
           ++ apply Hcons. rewrite forallb_app, Hevs1, Hevs2. reflexivity.
           ++ exact Hret.
        -- exists (EvReadMessage (Kratos.connection c) :: evs1).
           split; [| split].
           ++ subst w1. simpl. rewrite <- !app_assoc. reflexivity.
           ++ apply Hcons. exact Hevs1.
           ++ discriminate.
        -- exfalso. exact (Hfst1 eq_refl).
Qed.

Lemma handled_app (t1 t2 : list Event) :
  handled (t1 ++ t2) = (handled t1 ++ handled t2)%list.
Proof. unfold handled. apply omap_app. Qed.

Lemma handled_invocations (msg : wrp_Message) (handlers : list HandlerRegistry) :
  handled (invocations msg handlers)
  = map (fun h => (Handler h, msg)) (List.filter (handler_matches msg) handlers).
Proof.
  unfold invocations.
  induction (List.filter (handler_matches msg) handlers) as [|h rest IH];
    [reflexivity |].
  simpl. unfold handled in *. simpl. rewrite IH. reflexivity.
Qed.

(** C4.  The read loop over a frame that is received and decodes to [msg],
    the patterns being compiled.  Run for that one frame, the loop adds to
    the trace the read and then one call of [HandleMessage] for every
    registration whose pattern matches the destination of [msg], and
    nothing else: each matching registration is called once, with [msg],
    in registration order, so that the calls made are as many as the
    matching registrations.  Run for longer, the loop goes on from there,
    and the trace of [read] begins with those events whatever follows. *)
Theorem read_dispatches_to_every_match (E : Externals) (c : Kratos.client)
    (fuel : nat) (w : World) (messageType : Z) (frame : string)
    (msg : wrp_Message) :
  Forall (fun h => is_Some (keyRegex h)) (Kratos.handlers c) ->
  conn_ReadMessage E (trace w) (Kratos.connection c) = (messageType, frame, None) ->
  wrp_Decode E frame = (msg, None) ->
  let matched := List.filter (handler_matches msg) (Kratos.handlers c) in
  let pass := EvReadMessage (Kratos.connection c)
              :: map (fun h => EvHandleMessage (Handler h) msg) matched in
  Kratos.read_loop E 1 c w = (Pending, set_trace (trace w ++ pass)%list w)
  /\ handled (trace (snd (Kratos.read_loop E 1 c w)))
     = (handled (trace w) ++ map (fun h => (Handler h, msg)) matched)%list
  /\ length (handled (trace (snd (Kratos.read_loop E 1 c w))))
     = (length (handled (trace w)) + length matched)%nat
  /\ Kratos.read_loop E (S fuel) c w
     = Kratos.read_loop E fuel c (set_trace (trace w ++ pass)%list w)
  /\ exists later,
       trace (snd (Kratos.read E (S fuel) c w)) = (trace w ++ pass ++ later)%list.
Proof.
  intros Hcompiled Hread Hdecode matched pass.
  assert (forall n, Kratos.read_loop E (S n) c w
                    = Kratos.read_loop E n c (set_trace (trace w ++ pass)%list w))
    as Hpass
    by (intros n;
        exact (read_loop_pass E c n w messageType frame msg Hcompiled Hread Hdecode)).
  assert (handled (trace w ++ pass)
          = (handled (trace w) ++ map (fun h => (Handler h, msg)) matched)%list)
    as Hhandled.
  { rewrite handled_app. f_equal.
    change pass with ([EvReadMessage (Kratos.connection c)]
                      ++ invocations msg (Kratos.handlers c))%list.
    rewrite handled_app, handled_invocations. reflexivity. }
  split; [| split; [| split; [| split]]].
  - rewrite Hpass. reflexivity.
  - rewrite Hpass. exact Hhandled.
  - rewrite Hpass. cbn [Kratos.read_loop snd trace set_trace].
    rewrite Hhandled, length_app, length_map. reflexivity.
  - apply Hpass.
  - unfold Kratos.read, defer, bind, call, ret, panic. rewrite Hpass.
    destruct (read_loop_events E c fuel (set_trace (trace w ++ pass)%list w))
      as (evs & Hw & _ & _).
    destruct (Kratos.read_loop E fuel c (set_trace (trace w ++ pass)%list w))
      as [[r| reason |] w1]; simpl in *; subst w1; simpl;
      eexists; rewrite <- ?app_assoc; reflexivity.
Qed.

Lemma read_dispatches_to_every_match_witness :
  Kratos.read_loop Scenario.E_ok 1 Scenario.client_ok World_init
  = (Pending,
     set_trace [EvReadMessage 7%nat;
                EvHandleMessage 0%nat (Scenario.message_to "/foo/bar");
                EvHandleMessage 2%nat (Scenario.message_to "/foo/bar")]
               World_init)
  /\ handled (trace (snd (Kratos.read_loop Scenario.E_ok 1 Scenario.client_ok
                                           World_init)))
     = [(0%nat, Scenario.message_to "/foo/bar");
        (2%nat, Scenario.message_to "/foo/bar")].
Proof.
  assert (Forall (fun h => is_Some (keyRegex h))
                 (Kratos.handlers Scenario.client_ok)) as Hcompiled
    by (repeat (constructor; [eexists; reflexivity|]); constructor).
  destruct (read_dispatches_to_every_match Scenario.E_ok Scenario.client_ok 1
              World_init websocket.BinaryMessage "/foo/bar"
              (Scenario.message_to "/foo/bar") Hcompiled eq_refl eq_refl)
    as (Hloop & Hcalls & _).
  split; [exact Hloop | exact Hcalls].
Defined.

(** The whole loop on the scripted peer: two frames are dispatched, the
    third read fails, and [read] returns that error after closing the
    connection. *)
Example read_returns_on_read_error :
  Kratos.read Scenario.E_ok 3 Scenario.client_ok World_init
  = (Return (Some (errors_New "unexpected EOF")),
     set_trace [EvReadMessage 7%nat;
                EvHandleMessage 0%nat (Scenario.message_to "/foo/bar");
                EvHandleMessage 2%nat (Scenario.message_to "/foo/bar");
                EvReadMessage 7%nat;
                EvHandleMessage 1%nat (Scenario.message_to "zzz");
                EvReadMessage 7%nat;
                EvClose 7%nat] World_init).
Proof. vm_compute. reflexivity. Qed.

Lemma reads_so_far_app (t1 t2 : list Event) :
  Scenario.reads_so_far (t1 ++ t2)
  = (Scenario.reads_so_far t1 + Scenario.reads_so_far t2)%nat.
Proof. unfold Scenario.reads_so_far. rewrite List.filter_app. apply length_app. Qed.

Lemma reads_so_far_invocations (msg : wrp_Message) (handlers : list HandlerRegistry) :
  Scenario.reads_so_far (invocations msg handlers) = 0%nat.
Proof.
  unfold invocations.
  induction (List.filter (handler_matches msg) handlers) as [|h rest IH];
    [reflexivity | exact IH].
Qed.

(** The loop on a scripted transport, for every script: with one unit of
    fuel more than there are frames left, every frame left is read and
    dispatched in turn, and the loop returns the error of the read that
    follows the last frame. *)
Lemma read_loop_scripted (discovery : option http.Response * option error)
    (frames : list string) (write_err : option error) (c : Kratos.client)
    (w : World) :
  Forall (fun h => is_Some (keyRegex h)) (Kratos.handlers c) ->
  let E := Scenario.externals discovery frames write_err in
  let k := Scenario.reads_so_far (trace w) in
  Kratos.read_loop E (S (length frames - k)) c w
  = (Return (Some (errors_New "unexpected EOF")),
     set_trace
       (trace w
        ++ flat_map (fun frame => EvReadMessage (Kratos.connection c)
                                  :: invocations (Scenario.message_to frame)
                                                 (Kratos.handlers c))
                    (drop k frames)
        ++ [EvReadMessage (Kratos.connection c)])%list w).
Proof.
  intros Hcompiled E k. subst k.
  remember (length frames - Scenario.reads_so_far (trace w))%nat as n eqn:Hn.
  revert w Hn. induction n as [|n IH]; intros w Hn.
  - assert (frames !! Scenario.reads_so_far (trace w) = None) as Hnone
      by (apply lookup_ge_None; lia).
    rewrite drop_ge by lia.
    simpl. rewrite bind_call. simpl.
    unfold Scenario.scripted_read. rewrite Hnone. reflexivity.
  - destruct (frames !! Scenario.reads_so_far (trace w)) as [frame|] eqn:Hframe;
      [| apply lookup_ge_None in Hframe; lia].
    rewrite (read_loop_pass E c (S n) w websocket.BinaryMessage frame
               (Scenario.message_to frame) Hcompiled);
      [| simpl; unfold Scenario.scripted_read; rewrite Hframe; reflexivity
       | reflexivity].
    rewrite IH.
    + simpl trace. rewrite reads_so_far_app. simpl.
      change (EvReadMessage (Kratos.connection c)
                :: invocations (Scenario.message_to frame) (Kratos.handlers c))
        with ([EvReadMessage (Kratos.connection c)]
                ++ invocations (Scenario.message_to frame) (Kratos.handlers c))%list.
      rewrite reads_so_far_app, reads_so_far_invocations. simpl.
      rewrite Nat.add_1_r.
      rewrite (drop_S frames frame _ Hframe). simpl.
      rewrite <- !app_assoc. reflexivity.
    + simpl trace. rewrite reads_so_far_app.
      change (EvReadMessage (Kratos.connection c)
                :: invocations (Scenario.message_to frame) (Kratos.handlers c))
        with ([EvReadMessage (Kratos.connection c)]
                ++ invocations (Scenario.message_to frame) (Kratos.handlers c))%list.
      rewrite reads_so_far_app, reads_so_far_invocations. simpl. lia.
Qed.

(** The two ways out of the loop: a read that fails and a frame that does
    not decode; each ends [read] with that error, after the deferred
    [Close] of the connection. *)
Lemma read_stops_on_read_error (E : Externals) (c : Kratos.client) (fuel : nat)
    (w : World) (messageType : Z) (frame : string) (e : error) :
  conn_ReadMessage E (trace w) (Kratos.connection c) = (messageType, frame, Some e) ->
  Kratos.read E (S fuel) c w
  = (Return (Some e),
     set_trace (trace w ++ [EvReadMessage (Kratos.connection c);
                            EvClose (Kratos.connection c)])%list w).
Proof.
  intros Hread. unfold Kratos.read, defer. simpl.
  rewrite bind_call, Hread. simpl.
  unfold bind, call, ret. simpl. rewrite <- app_assoc. reflexivity.
Qed.

Lemma read_stops_on_decode_error (E : Externals) (c : Kratos.client) (fuel : nat)
    (w : World) (messageType : Z) (frame : string) (msg : wrp_Message) (e : error) :
  conn_ReadMessage E (trace w) (Kratos.connection c) = (messageType, frame, None) ->
  wrp_Decode E frame = (msg, Some e) ->
  Kratos.read E (S fuel) c w
  = (Return (Some e),
     set_trace (trace w ++ [EvReadMessage (Kratos.connection c);
                            EvClose (Kratos.connection c)])%list w).
Proof.
  intros Hread Hdecode. unfold Kratos.read, defer. simpl.
  rewrite bind_call, Hread. simpl. rewrite Hdecode. simpl.
  unfold bind, call, ret. simpl. rewrite <- app_assoc. reflexivity.
Qed.

(** When the regular expression compiler hands out a matcher with every nil
    error, the registrations [New] puts into a client all have one. *)
Lemma compileHandlers_compiled (E : Externals) (handlers : list HandlerRegistry) :
  (forall pattern re, regexp_Compile E pattern = (re, None) -> is_Some re) ->
  snd (compileHandlers E handlers) = None ->
  Forall (fun h => is_Some (keyRegex h)) (fst (compileHandlers E handlers)).
Proof.
  intros Hcompiler.
  induction handlers as [|h rest IH]; simpl; [constructor |].
  destruct (regexp_Compile E (HandlerKey h)) as [re [e|]] eqn:Hre; simpl;
    [discriminate |].
  destruct (compileHandlers E rest) as [rest' err']. simpl in *.
  intros ->. constructor; [| apply IH; reflexivity].
  simpl. exact (Hcompiler _ _ Hre).
Qed.

Lemma New_client_handlers (E : Externals) (f : ClientFactory) (w w' : World)
    (c : Kratos.client) (err : option error) :
  Kratos.New E f w = (Return (Some c, err), w') ->
  Kratos.handlers c = fst (compileHandlers E (Handlers f))
  /\ snd (compileHandlers E (Handlers f)) = None.
Proof.
  unfold Kratos.New, bind.
  destruct (Kratos.createConnection E (inHeader_of f) (DestinationURL f)
              (CRT f) (Key f) w) as [[[[[conn|] u] [e|]] | reason |] w1];
    simpl; try discriminate.
  destruct (compileHandlers E (Handlers f)) as [handlers' [e|]]; simpl;
    [discriminate |].
  intros H. injection H as <- _ _. split; reflexivity.
Qed.

(** ** Connection establishment *)

(** Once the device name, the certificate and the URL are accepted,
    [createConnection] sends one request, with the device name as its only
    header, and goes on with the answer. *)
Lemma createConnection_discovery (E : Externals) (headerInfo : clientHeader)
    (httpURL crtFile keyFile : string) (client : http_Client) (dialer : Dialer)
    (w : World) :
  device_ParseID E (deviceName headerInfo) = None ->
  Kratos.tls_setup E crtFile keyFile = (client, dialer, None) ->
  url_Parse E httpURL = None ->
  let req := device_name_request headerInfo httpURL in
  Kratos.createConnection E headerInfo httpURL crtFile keyFile w
  = Kratos.after_discovery E dialer (identity_headers headerInfo)
      (fst (client_Do E client req)) (snd (client_Do E client req))
      (set_trace (trace w ++ [EvDo client req])%list w).
Proof.
  intros Hid Htls Hurl req.
  unfold Kratos.createConnection. rewrite Hid, Htls.
  unfold http_NewRequest. rewrite Hurl.
  unfold Kratos.discovery_request, http.Header_Set; simpl.
  rewrite insert_empty, bind_call. fold (device_name_request headerInfo httpURL).
  fold req. destruct (client_Do E client req) as [resp err]. reflexivity.
Qed.

(** The four identity headers, under their fixed names. *)
Lemma identity_headers_lookup (headerInfo : clientHeader) :
  identity_headers headerInfo !! "X-Webpa-Device-Name" = Some [deviceName headerInfo]
  /\ identity_headers headerInfo !! "X-Webpa-Firmware-Name" = Some [firmwareName headerInfo]
  /\ identity_headers headerInfo !! "X-Webpa-Model-Name" = Some [modelName headerInfo]
  /\ identity_headers headerInfo !! "X-Webpa-Manufacturer" = Some [manufacturer headerInfo].
Proof.
  unfold identity_headers, http.Header_Add.
  repeat split; simplify_map_eq; reflexivity.
Qed.

(** What [after_discovery] adds to the trace: nothing, or one dial with the
    identity headers; a connection is only ever returned with the URL that
    was dialed. *)
Lemma after_discovery_events (E : Externals) (dialer : Dialer)
    (headers : http.Header) (resp : option http.Response) (err : option error)
    (w : World) :
  let r := Kratos.after_discovery E dialer headers resp err w in
  (snd r = w /\ forall conn u e, fst r <> Return (Some conn, u, e))
  \/ exists u, snd r = set_trace (trace w ++ [EvDial dialer u headers])%list w
               /\ forall conn u' e, fst r = Return (Some conn, u', e) -> u' = u.
Proof.
  unfold Kratos.after_discovery, bind, call, ret, panic; simpl.
  repeat case_match; simplify_eq; simpl;
    first [ left; split; [reflexivity | congruence]
          | right; eexists; split; [reflexivity | congruence] ].
Qed.

(** What [createConnection] adds to the trace: nothing, the discovery
    request, or the discovery request and one dial. *)
Lemma createConnection_events (E : Externals) (headerInfo : clientHeader)
    (httpURL crtFile keyFile : string) (w : World) :
  let r := Kratos.createConnection E headerInfo httpURL crtFile keyFile w in
  (snd r = w /\ forall conn u e, fst r <> Return (Some conn, u, e))
  \/ (exists client req,
        snd r = set_trace (trace w ++ [EvDo client req])%list w
        /\ forall conn u e, fst r <> Return (Some conn, u, e))
  \/ (exists client req dialer u,
        snd r = set_trace (trace w ++ [EvDo client req;
                                      EvDial dialer u (identity_headers headerInfo)])%list w
        /\ forall conn u' e, fst r = Return (Some conn, u', e) -> u' = u).
Proof.
  unfold Kratos.createConnection.
  destruct (device_ParseID E (deviceName headerInfo));
    [left; split; [reflexivity | simpl; congruence] |].
  destruct (Kratos.tls_setup E crtFile keyFile) as [[client dialer] [e|]];
    [left; split; [reflexivity | simpl; congruence] |].
  destruct (http_NewRequest E "GET" httpURL) as [[req|] ?];
    [| left; split; [reflexivity | simpl; congruence] ].
  rewrite bind_call.
  destruct (client_Do E client _) as [resp err].
  match goal with
  | |- context [Kratos.after_discovery E dialer ?h resp err ?w1] =>
      destruct (after_discovery_events E dialer h resp err w1) as [[Hw Hr] | [u [Hw Hr]]]
  end; simpl in *.
  - right; left. exists client, (Kratos.discovery_request headerInfo req).
    split; [exact Hw | exact Hr].
  - right; right. exists client, (Kratos.discovery_request headerInfo req), dialer, u.
    split; [| exact Hr].
    rewrite Hw. simpl. rewrite <- app_assoc. reflexivity.
Qed.

(** The redirect branch: with a prior response and a [307] on either
    response, [after_discovery] dials the URL made from the redirect
    location, once, and hands back what the dialer answers. *)
Lemma after_discovery_redirect (E : Externals) (dialer : Dialer)
    (headers : http.Header) (resp prior : http.Response) (w : World) :
  http.Request_Response resp = Some prior ->
  http.StatusCode resp = 307 \/ http.StatusCode prior = 307 ->
  let wsURL := strings.Replace (redirect_location resp prior) "http" "ws" 1
               +:+ "/api/v2/device" in
  Kratos.after_discovery E dialer headers (Some resp) None w
  = (match snd (dialer_Dial E dialer wsURL headers) with
     | Some e => Return (None, "", Some e)
     | None =>
         match snd (fst (dialer_Dial E dialer wsURL headers)) with
         | None => Return (None, "", None)
         | Some _ => Return (fst (fst (dialer_Dial E dialer wsURL headers)),
                             wsURL, None)
         end
     end,
     set_trace (trace w ++ [EvDial dialer wsURL headers])%list w).
Proof.
  intros Hprior Hstatus wsURL.
  unfold Kratos.after_discovery. rewrite Hprior.
  assert ((http.StatusCode resp =? http.StatusTemporaryRedirect)
          || (http.StatusCode prior =? http.StatusTemporaryRedirect) = true) as ->.
  { unfold http.StatusTemporaryRedirect.
    destruct Hstatus as [-> | ->]; [reflexivity | apply orb_true_r]. }
  assert (Kratos.redirect_wsURL resp prior = wsURL) as ->.
  { unfold Kratos.redirect_wsURL, wsURL, redirect_location.
    destruct (decide (http.Header_Get (http.Response_Header resp) "Location" = ""))
      as [Hloc | Hloc].
    - rewrite bool_decide_eq_false_2; [reflexivity | intros Hne; exact (Hne Hloc)].
    - rewrite bool_decide_eq_true_2; [reflexivity | exact Hloc]. }
  rewrite bind_call.
  destruct (dialer_Dial E dialer wsURL headers) as [[connection upgrade] [e|]];
    [reflexivity |]. destruct upgrade; reflexivity.
Qed.

(** ** C9: the headers of the discovery request and of the dial *)

(** C9, as stated, fails: on the scripted peer the one discovery request
    that [New] sends does not carry the four identity headers (the firmware
    name, for one, is missing). *)
Lemma discovery_request_lacks_identity_headers :
  ~ Forall (fun req => carries_identity (http.Request_Header req)
                                        (inHeader_of Scenario.f_ok))
           (requests (trace (snd (run (Kratos.New Scenario.E_ok Scenario.f_ok))))).
Proof.
  assert (requests (trace (snd (run (Kratos.New Scenario.E_ok Scenario.f_ok))))
          = [device_name_request (inHeader_of Scenario.f_ok)
                                 (DestinationURL Scenario.f_ok)]) as ->
    by (vm_compute; reflexivity).
  intros H. apply Forall_inv in H. destruct H as (_ & Hfirmware & _).
  vm_compute in Hfirmware. discriminate Hfirmware.
Qed.

(** C9, amended.  Once the device name, the certificate and the URL are
    accepted, [createConnection] sends exactly one discovery request: a
    [GET] of the configured URL whose only header is [X-Webpa-Device-Name].
    The four identity headers are carried by the dial of the transport:
    every dial in the trace has them under their fixed names. *)
Theorem discovery_sends_device_name_dial_sends_identity (E : Externals)
    (headerInfo : clientHeader) (httpURL crtFile keyFile : string)
    (client : http_Client) (dialer : Dialer) :
  device_ParseID E (deviceName headerInfo) = None ->
  Kratos.tls_setup E crtFile keyFile = (client, dialer, None) ->
  url_Parse E httpURL = None ->
  let t := trace (snd (run (Kratos.createConnection E headerInfo httpURL
                                                    crtFile keyFile))) in
  let req := device_name_request headerInfo httpURL in
  requests t = [req]
  /\ http.Method req = "GET" /\ http.URL req = httpURL
  /\ http.Request_Header req !! "X-Webpa-Device-Name" = Some [deviceName headerInfo]
  /\ (forall key, key <> "X-Webpa-Device-Name" ->
        http.Request_Header req !! key = None)
  /\ (forall d u h, EvDial d u h ∈ t -> carries_identity h headerInfo).
Proof.
  intros Hid Htls Hurl t req. subst t. unfold run.
  rewrite (createConnection_discovery E headerInfo httpURL crtFile keyFile
             client dialer World_init Hid Htls Hurl).
  fold req.
  pose proof (identity_headers_lookup headerInfo) as Hcarried.
  split; [| split; [reflexivity | split; [reflexivity | split; [| split]]]].
  - destruct (after_discovery_events E dialer (identity_headers headerInfo)
                (fst (client_Do E client req)) (snd (client_Do E client req))
                (set_trace (trace World_init ++ [EvDo client req])%list World_init))
      as [[-> _] | [u [-> _]]]; reflexivity.
  - apply lookup_singleton_eq.
  - intros key Hkey. apply lookup_singleton_ne. congruence.
  - intros d u h.
    destruct (after_discovery_events E dialer (identity_headers headerInfo)
                (fst (client_Do E client req)) (snd (client_Do E client req))
                (set_trace (trace World_init ++ [EvDo client req])%list World_init))
      as [[-> _] | [u' [-> _]]]; simpl; intros Hin.
    + apply list_elem_of_singleton in Hin. discriminate Hin.
    + apply elem_of_cons in Hin as [Hin | Hin]; [discriminate Hin |].
      apply list_elem_of_singleton in Hin. injection Hin as _ _ ->.
      exact Hcarried.
Qed.

Lemma discovery_sends_device_name_dial_sends_identity_witness :
  requests (trace (snd (run (Kratos.createConnection Scenario.E_ok
                               (inHeader_of Scenario.f_ok)
                               "http://petasos:6400/" "" ""))))
  = [device_name_request (inHeader_of Scenario.f_ok) "http://petasos:6400/"]
  /\ carries_identity (identity_headers (inHeader_of Scenario.f_ok))
                      (inHeader_of Scenario.f_ok).
Proof.
  pose proof (discovery_sends_device_name_dial_sends_identity Scenario.E_ok
                (inHeader_of Scenario.f_ok) "http://petasos:6400/" "" ""
                {| Transport := None |} Dialer_zero
                eq_refl eq_refl eq_refl) as (Hreq & _ & _ & _ & _ & Hdial).
  split; [exact Hreq |].
  apply (Hdial Dialer_zero "ws://host:1234/path/api/v2/device").
  vm_compute. right. left.
Defined.

(** ** C2: which responses count as the redirect *)

(** C2, as stated, fails: a discovery response that is itself the [307]
    and has no prior response does not reach the dial; [createConnection]
    fails after the discovery request.  The answer is one the HTTP layer
    hands back as it is: a [307] that names no [Location], so that there is
    no redirect to follow and no prior response to record. *)
Lemma direct_redirect_without_prior_fails :
  client_Do Scenario.E_bare {| Transport := None |}
            (device_name_request (inHeader_of Scenario.f_ok) "http://petasos:6400/")
  = (Some Scenario.bare_redirect, None)
  /\ http.StatusCode Scenario.bare_redirect = 307
  /\ http.Header_Get (http.Response_Header Scenario.bare_redirect) "Location" = ""
  /\ http.Request_Response Scenario.bare_redirect = None
  /\ run (Kratos.createConnection Scenario.E_bare
            (inHeader_of Scenario.f_ok) "http://petasos:6400/" "" "")
     = (Return (None, "", Some (errors_New "Petasos response is nil!")),
        set_trace [EvDo {| Transport := None |}
                        (device_name_request (inHeader_of Scenario.f_ok)
                                             "http://petasos:6400/")]
                  World_init)
  /\ dialed (trace (snd (run (Kratos.createConnection Scenario.E_bare
                                (inHeader_of Scenario.f_ok)
                                "http://petasos:6400/" "" ""))))
     = [].
Proof. repeat split; vm_compute; reflexivity. Qed.

(** C2, amended.  With the discovery request answered by [resp]:
    without a prior response, [createConnection] fails with "Petasos
    response is nil!" and dials nothing, whatever the status of [resp];
    with a prior response, a [307] on either of the two leads to one dial,
    of the URL made from the [Location] of [resp] when it has a non-empty
    one and from that of the prior response otherwise, and a connection the
    dialer returns is handed back with that URL. *)
Theorem redirect_needs_prior_response (E : Externals) (headerInfo : clientHeader)
    (httpURL crtFile keyFile : string) (client : http_Client) (dialer : Dialer)
    (resp : http.Response) (w : World) :
  device_ParseID E (deviceName headerInfo) = None ->
  Kratos.tls_setup E crtFile keyFile = (client, dialer, None) ->
  url_Parse E httpURL = None ->
  client_Do E client (device_name_request headerInfo httpURL) = (Some resp, None) ->
  let w1 := set_trace (trace w ++ [EvDo client (device_name_request headerInfo httpURL)])%list w in
  (http.Request_Response resp = None ->
     Kratos.createConnection E headerInfo httpURL crtFile keyFile w
     = (Return (None, "", Some (errors_New "Petasos response is nil!")), w1))
  /\ (forall prior, http.Request_Response resp = Some prior ->
        http.StatusCode resp = 307 \/ http.StatusCode prior = 307 ->
        let wsURL := strings.Replace (redirect_location resp prior) "http" "ws" 1
                     +:+ "/api/v2/device" in
        let headers := identity_headers headerInfo in
        snd (Kratos.createConnection E headerInfo httpURL crtFile keyFile w)
        = set_trace (trace w1 ++ [EvDial dialer wsURL headers])%list w1
        /\ forall conn upgrade,
             dialer_Dial E dialer wsURL headers = (Some conn, Some upgrade, None) ->
             fst (Kratos.createConnection E headerInfo httpURL crtFile keyFile w)
             = Return (Some conn, wsURL, None)).
Proof.
  intros Hid Htls Hurl Hdo w1.
  rewrite (createConnection_discovery E headerInfo httpURL crtFile keyFile
             client dialer w Hid Htls Hurl).
  cbv zeta. rewrite Hdo. cbn [fst snd]. fold w1.
  split.
  - intros Hprior. unfold Kratos.after_discovery. rewrite Hprior. reflexivity.
  - intros prior Hprior Hstatus.
    rewrite (after_discovery_redirect E dialer (identity_headers headerInfo)
               resp prior w1 Hprior Hstatus).
    split; [reflexivity |].
    intros conn upgrade ->. reflexivity.
Qed.

Lemma redirect_needs_prior_response_witness :
  Kratos.createConnection Scenario.E_bare (inHeader_of Scenario.f_ok)
                          "http://petasos:6400/" "" "" World_init
  = (Return (None, "", Some (errors_New "Petasos response is nil!")),
     set_trace [EvDo {| Transport := None |}
                     (device_name_request (inHeader_of Scenario.f_ok)
                                          "http://petasos:6400/")] World_init)
  /\ fst (Kratos.createConnection Scenario.E_ok (inHeader_of Scenario.f_ok)
                                  "http://petasos:6400/" "" "" World_init)
     = Return (Some 7%nat, "ws://host:1234/path/api/v2/device", None).
Proof.
  split.
  - apply (proj1 (redirect_needs_prior_response Scenario.E_bare
                    (inHeader_of Scenario.f_ok) "http://petasos:6400/" "" ""
                    {| Transport := None |} Dialer_zero Scenario.bare_redirect
                    World_init
                    eq_refl eq_refl eq_refl eq_refl)).
    reflexivity.
  - apply (proj2 (proj2 (redirect_needs_prior_response Scenario.E_ok
                    (inHeader_of Scenario.f_ok) "http://petasos:6400/" "" ""
                    {| Transport := None |} Dialer_zero Scenario.followed_redirect
                    World_init eq_refl eq_refl eq_refl eq_refl)
                  Scenario.redirect eq_refl (or_intror eq_refl))
             7%nat Scenario.upgrade).
    reflexivity.
Defined.

(** ** C7: a pattern that does not compile *)

Lemma compileHandlers_error (E : Externals) (handlers : list HandlerRegistry) :
  snd (compileHandlers E handlers) = first_compile_error E handlers.
Proof.
  unfold first_compile_error.
  induction handlers as [|h rest IH]; [reflexivity |].
  simpl. destruct (regexp_Compile E (HandlerKey h)) as [re [e|]]; simpl.
  - reflexivity.
  - destruct (compileHandlers E rest) as [rest' err']. exact IH.
Qed.

Lemma first_compile_error_bad_pattern (E : Externals)
    (handlers : list HandlerRegistry) :
  Exists (bad_pattern E) handlers -> is_Some (first_compile_error E handlers).
Proof.
  unfold first_compile_error, bad_pattern.
  induction 1 as [h rest [e He] | h rest _ IH]; simpl.
  - rewrite He. simpl. eexists; reflexivity.
  - destruct (snd (regexp_Compile E (HandlerKey h))); simpl; [eexists; reflexivity | exact IH].
Qed.

(** C7, as stated, fails: the second pattern of the configuration does not
    compile and construction returns the compile error, but the transport
    was opened before: the dial of the connect URL is in the trace, and
    the dialer answered it with a connection. *)
Lemma bad_pattern_found_after_dial :
  Exists (bad_pattern Scenario.E_ok) (Handlers Scenario.f_bad_pattern)
  /\ fst (run (Kratos.New Scenario.E_ok Scenario.f_bad_pattern))
     = Return (None, Some (errors_New "missing closing )"))
  /\ dialed (trace (snd (run (Kratos.New Scenario.E_ok Scenario.f_bad_pattern))))
     = ["ws://host:1234/path/api/v2/device"]
  /\ dialer_Dial Scenario.E_ok Dialer_zero "ws://host:1234/path/api/v2/device"
                 (identity_headers (inHeader_of Scenario.f_bad_pattern))
     = (Some 7%nat, Some Scenario.upgrade, None).
Proof.
  split; [| repeat split; vm_compute; reflexivity].
  apply Exists_cons_tl, Exists_cons_hd. eexists. reflexivity.
Qed.

Lemma dialed_app (t1 t2 : list Event) : dialed (t1 ++ t2) = (dialed t1 ++ dialed t2)%list.
Proof. apply omap_app. Qed.

Lemma started_app (t1 t2 : list Event) : started (t1 ++ t2) = (started t1 ++ started t2)%list.
Proof. apply omap_app. Qed.

(** What [createConnection] leaves untouched: it starts no goroutine. *)
Lemma createConnection_starts_nothing (E : Externals) (headerInfo : clientHeader)
    (httpURL crtFile keyFile : string) (w : World) :
  started (trace (snd (Kratos.createConnection E headerInfo httpURL
                                               crtFile keyFile w)))
  = started (trace w).
Proof.
  destruct (createConnection_events E headerInfo httpURL crtFile keyFile w)
    as [[-> _] | [(client & req & -> & _) | (client & req & dialer & u & -> & _)]];
    simpl; rewrite ?started_app; simpl; rewrite ?app_nil_r; reflexivity.
Qed.

(** C7, amended.  With a pattern that does not compile in the
    configuration, [New] returns no client and starts no goroutine.  The
    patterns are compiled after connection establishment: when
    establishment fails, its error is returned; when it hands back a
    connection, the connect URL has been dialed by then and the error
    returned is that of the first pattern that does not compile. *)
Theorem New_compiles_patterns_after_dial (E : Externals) (f : ClientFactory)
    (w : World) :
  Exists (bad_pattern E) (Handlers f) ->
  let r := Kratos.createConnection E (inHeader_of f) (DestinationURL f)
                                   (CRT f) (Key f) w in
  (returned_client (Kratos.New E f w) = None
   /\ started (trace (snd (Kratos.New E f w))) = started (trace w))
  /\ (forall c u e, fst r = Return (c, u, Some e) ->
        Kratos.New E f w = (Return (None, Some e), snd r))
  /\ (forall conn u, fst r = Return (Some conn, u, None) ->
        exists e w', first_compile_error E (Handlers f) = Some e
                     /\ Kratos.New E f w = (Return (None, Some e), w')
                     /\ u ∈ dialed (trace w')).
Proof.
  intros Hbad r.
  pose proof (createConnection_events E (inHeader_of f) (DestinationURL f)
                (CRT f) (Key f) w) as Hevents.
  pose proof (createConnection_starts_nothing E (inHeader_of f) (DestinationURL f)
                (CRT f) (Key f) w) as Hstarted.
  cbv zeta in Hevents. fold r in Hevents, Hstarted.
  destruct (first_compile_error_bad_pattern E _ Hbad) as [e He].
  pose proof (compileHandlers_error E (Handlers f)) as Herr.
  rewrite He in Herr.
  unfold returned_client, Kratos.New, bind. fold r.
  destruct r as [o w1]. simpl in Hevents, Hstarted |- *.
  destruct (compileHandlers E (Handlers f)) as [handlers' err].
  simpl in Herr. subst err.
  split; [| split].
  - destruct o as [[[[conn|] u] [e'|]] | reason |]; simpl;
      rewrite ?started_app; simpl; rewrite ?app_nil_r; auto.
  - intros c u e' ->. reflexivity.
  - intros conn u ->. exists e.
    eexists. split; [exact He |]. split; [reflexivity |].
    destruct Hevents as [[_ Hno] | [(client & req & _ & Hno)
                                   | (client & req & dialer & u' & -> & Hu)]];
      try (exfalso; exact (Hno conn u None eq_refl)).
    rewrite (Hu conn u None eq_refl). simpl.
    rewrite !dialed_app. simpl. set_solver.
Qed.

Lemma New_compiles_patterns_after_dial_witness :
  (exists e w', first_compile_error Scenario.E_ok (Handlers Scenario.f_bad_pattern) = Some e
                /\ Kratos.New Scenario.E_ok Scenario.f_bad_pattern World_init
                   = (Return (None, Some e), w')
                /\ "ws://host:1234/path/api/v2/device" ∈ dialed (trace w')).
Proof.
  assert (Exists (bad_pattern Scenario.E_ok) (Handlers Scenario.f_bad_pattern))
    as Hbad.
  { apply Exists_cons_tl, Exists_cons_hd. eexists. reflexivity. }
  apply (proj2 (proj2 (New_compiles_patterns_after_dial Scenario.E_ok
                         Scenario.f_bad_pattern World_init Hbad)) 7%nat).
  reflexivity.
Defined.

(** ** C1: the connect URL and the hostname *)

(** C1, as stated, fails in its last part: for the redirect to
    [http://host:1234/path] the URL dialed is
    [ws://host:1234/path/api/v2/device], and [Hostname] on the client
    returns that URL, not [host]. *)
Lemma Hostname_is_not_the_host_portion :
  http.StatusCode Scenario.redirect = 307
  /\ http.Header_Get (http.Response_Header Scenario.redirect) "Location"
     = "http://host:1234/path"
  /\ dialed (trace (snd (run (Kratos.New Scenario.E_ok Scenario.f_ok))))
     = ["ws://host:1234/path/api/v2/device"]
  /\ Kratos.Hostname <$> returned_client (run (Kratos.New Scenario.E_ok Scenario.f_ok))
     = Some "ws://host:1234/path/api/v2/device"
  /\ Kratos.Hostname <$> returned_client (run (Kratos.New Scenario.E_ok Scenario.f_ok))
     <> Some "host".
Proof.
  repeat split; try (vm_compute; reflexivity).
  vm_compute. discriminate.
Qed.

(** C1, amended.  The discovery handshake yields a response that has a
    prior response, one of the two with status [307].  The [Location] the
    code reads is that of the response itself when that is not empty, and
    that of the prior response otherwise.  When the [Location] read in this
    way is [http://host:1234/path], the dial succeeds and every pattern
    compiles, [New] returns a client; the one URL it dialed is
    [ws://host:1234/path/api/v2/device], and [Hostname] on the client
    returns that same connect URL, not the host alone. *)
Theorem Hostname_is_the_connect_URL (E : Externals) (f : ClientFactory)
    (w : World) (client : http_Client) (dialer : Dialer)
    (resp prior upgrade : http.Response) (conn : Conn) :
  device_ParseID E (DeviceName f) = None ->
  Kratos.tls_setup E (CRT f) (Key f) = (client, dialer, None) ->
  url_Parse E (DestinationURL f) = None ->
  client_Do E client (device_name_request (inHeader_of f) (DestinationURL f))
  = (Some resp, None) ->
  http.Request_Response resp = Some prior ->
  http.StatusCode resp = 307 \/ http.StatusCode prior = 307 ->
  http.Header_Get (http.Response_Header resp) "Location" = "http://host:1234/path"
  \/ (http.Header_Get (http.Response_Header resp) "Location" = ""
      /\ http.Header_Get (http.Response_Header prior) "Location"
         = "http://host:1234/path") ->
  dialer_Dial E dialer "ws://host:1234/path/api/v2/device"
              (identity_headers (inHeader_of f))
  = (Some conn, Some upgrade, None) ->
  first_compile_error E (Handlers f) = None ->
  exists c w',
    Kratos.New E f w = (Return (Some c, None), w')
    /\ dialed (trace w') = (dialed (trace w) ++ ["ws://host:1234/path/api/v2/device"])%list
    /\ Kratos.Hostname c = "ws://host:1234/path/api/v2/device"
    /\ Kratos.Hostname c <> "host".
Proof.
  intros Hid Htls Hurl Hdo Hprior Hstatus Hwhich Hdial Hcompile.
  assert (redirect_location resp prior = "http://host:1234/path") as Hloc.
  { unfold redirect_location.
    destruct Hwhich as [Hresp | [Hresp Hpri]]; rewrite Hresp.
    - destruct (decide ("http://host:1234/path" = "")) as [H|_];
        [discriminate H | reflexivity].
    - destruct (decide ("" = "")) as [_|H]; [exact Hpri | contradiction]. }
  pose proof (compileHandlers_error E (Handlers f)) as Herr.
  rewrite Hcompile in Herr.
  unfold Kratos.New, bind.
  rewrite (createConnection_discovery E (inHeader_of f) (DestinationURL f)
             (CRT f) (Key f) client dialer w Hid Htls Hurl).
  cbv zeta. rewrite Hdo. cbn [fst snd].
  rewrite (after_discovery_redirect E dialer (identity_headers (inHeader_of f))
             resp prior _ Hprior Hstatus).
  rewrite Hloc.
  change (strings.Replace "http://host:1234/path" "http" "ws" 1 +:+ "/api/v2/device")
    with "ws://host:1234/path/api/v2/device".
  rewrite Hdial. simpl.
  destruct (compileHandlers E (Handlers f)) as [handlers' err].
  simpl in Herr. subst err. simpl.
  eexists. eexists. split; [reflexivity |]. split; [| split].
  - simpl. rewrite !dialed_app. simpl. rewrite !app_nil_r. reflexivity.
  - reflexivity.
  - discriminate.
Qed.

(** Whatever the redirect, the hostname of a client [New] returns is the
    URL that was dialed for it. *)
Lemma Hostname_is_dialed (E : Externals) (f : ClientFactory) (w w' : World)
    (c : Kratos.client) (err : option error) :
  Kratos.New E f w = (Return (Some c, err), w') ->
  Kratos.Hostname c ∈ dialed (trace w').
Proof.
  unfold Kratos.New, bind.
  pose proof (createConnection_events E (inHeader_of f) (DestinationURL f)
                (CRT f) (Key f) w) as Hevents. cbv zeta in Hevents.
  destruct (Kratos.createConnection E (inHeader_of f) (DestinationURL f)
              (CRT f) (Key f) w) as [[[[[conn|] u] [e|]] | reason |] w1];
    simpl in *; try discriminate.
  destruct (compileHandlers E (Handlers f)) as [handlers' [e|]]; simpl;
    [discriminate |].
  intros H. injection H as <- _ <-. simpl.
  destruct Hevents as [[_ Hno] | [(client & req & _ & Hno)
                                 | (client & req & dialer & u' & -> & Hu)]];
    try (exfalso; exact (Hno conn u None eq_refl)).
  rewrite (Hu conn u None eq_refl). simpl.
  rewrite !dialed_app. simpl. set_solver.
Qed.

Lemma Hostname_is_the_connect_URL_witness :
  exists c w',
    Kratos.New Scenario.E_ok Scenario.f_ok World_init = (Return (Some c, None), w')
    /\ dialed (trace w') = ["ws://host:1234/path/api/v2/device"]
    /\ Kratos.Hostname c = "ws://host:1234/path/api/v2/device"
    /\ Kratos.Hostname c <> "host".
Proof.
  apply (Hostname_is_the_connect_URL Scenario.E_ok Scenario.f_ok World_init
           {| Transport := None |} Dialer_zero Scenario.followed_redirect
           Scenario.redirect Scenario.upgrade 7%nat);
    try reflexivity.
  - right. reflexivity.
  - right. split; reflexivity.
Defined.

(** The [Location] of the response itself comes first: when the answer of
    the redirect target carries one, the [Location] of the [307] that was
    followed to reach it is not used, for the dial and for the hostname
    alike. *)
Example Location_of_the_response_comes_first :
  http.Header_Get
    (http.Response_Header Scenario.redirect) "Location" = "http://host:1234/path"
  /\ dialed (trace (snd (run (Kratos.New Scenario.E_final_location Scenario.f_ok))))
     = ["ws://other:1/x/api/v2/device"]
  /\ Kratos.Hostname
       <$> returned_client (run (Kratos.New Scenario.E_final_location Scenario.f_ok))
     = Some "ws://other:1/x/api/v2/device".
Proof. repeat split; vm_compute; reflexivity. Qed.

(** ** C3: the message of a server error *)

(** The message [createError] builds, for every response: the decoded
    message when it is not empty; else the fixed strings for [523] and
    [524]; else the reason phrase of the [code] decoded from the body. *)
Lemma createError_message (E : Externals) (resp : http.Response) (sub : error) :
  let decoded := json_Unmarshal E (http.Body resp) Message_zero in
  createError E resp sub
  = Error_ {| Code := Code decoded;
              Msg := if decide (Msg decoded = "") then
                       if http.StatusCode resp =? 523 then "ErrorDeviceBusy"
                       else if http.StatusCode resp =? 524 then
                         "ErrorTransactionsClosed/ErrorTransactionsAlreadyClosed/ErrorDeviceClosed"
                       else http.StatusText (Code decoded)
                     else Msg decoded |} sub.
Proof.
  intros decoded. unfold createError. fold decoded.
  unfold StatusDeviceDisconnected, StatusDeviceTimeout.
  destruct (decide (Msg decoded = "")) as [Hempty | Hfull].
  - destruct (http.StatusCode resp =? 523); [reflexivity |].
    destruct (http.StatusCode resp =? 524); reflexivity.
  - destruct decoded; reflexivity.
Qed.

(** C3.  For a status other than [523] and [524] and a body that leaves the
    message empty, the message of the error is the reason phrase of the
    [code] decoded from the body, not that of the status of the response;
    with no code in the body that is the reason phrase of [0], the empty
    string. *)
Theorem createError_phrase_of_decoded_code (E : Externals)
    (resp : http.Response) (sub : error) :
  Msg (json_Unmarshal E (http.Body resp) Message_zero) = "" ->
  http.StatusCode resp <> 523 ->
  http.StatusCode resp <> 524 ->
  createError E resp sub
  = Error_ {| Code := Code (json_Unmarshal E (http.Body resp) Message_zero);
              Msg := http.StatusText
                       (Code (json_Unmarshal E (http.Body resp) Message_zero)) |}
           sub.
Proof.
  intros Hempty H523 H524.
  rewrite createError_message. cbv zeta.
  rewrite decide_True by exact Hempty.
  apply Z.eqb_neq in H523, H524. rewrite H523, H524. reflexivity.
Qed.

Lemma createError_phrase_of_decoded_code_witness :
  createError Scenario.E_not_found Scenario.not_found
              (errors_New "Received invalid response from petasos!")
  = Error_ {| Code := 0; Msg := "" |}
           (errors_New "Received invalid response from petasos!")
  /\ http.StatusText (http.StatusCode Scenario.not_found) = "Not Found".
Proof.
  split; [| reflexivity].
  apply (createError_phrase_of_decoded_code Scenario.E_not_found
           Scenario.not_found
           (errors_New "Received invalid response from petasos!"));
    [reflexivity | discriminate | discriminate].
Defined.

(** The same through [New]: the error construction returns for that
    discovery answer has an empty message. *)
Example New_not_found_has_empty_message :
  returned_error (run (Kratos.New Scenario.E_not_found Scenario.f_ok))
  = Some (Error_ {| Code := 0; Msg := "" |}
                 (errors_New "Received invalid response from petasos!")).
Proof. vm_compute. reflexivity. Qed.

(** A [523] that is the discovery response itself, with no prior response,
    does not reach [createError]. *)
Example New_direct_busy_is_nil_response :
  returned_error (run (Kratos.New Scenario.E_busy Scenario.f_ok))
  = Some (errors_New "Petasos response is nil!").
Proof. vm_compute. reflexivity. Qed.

(** The parts of the mapping that hold as the specification has them. *)
Example createError_fixed_strings_and_body_message :
  createError Scenario.E_ok (Scenario.response 523 "" "" None) (errors_New "sub")
  = Error_ {| Code := 0; Msg := "ErrorDeviceBusy" |} (errors_New "sub")
  /\ createError Scenario.E_ok (Scenario.response 524 "" "" None) (errors_New "sub")
     = Error_ {| Code := 0;
                 Msg := "ErrorTransactionsClosed/ErrorTransactionsAlreadyClosed/ErrorDeviceClosed" |}
              (errors_New "sub")
  /\ createError Scenario.E_ok
                 (Scenario.response 404 "" Scenario.body_not_found None)
                 (errors_New "sub")
     = Error_ {| Code := 404; Msg := "not found" |} (errors_New "sub").
Proof. repeat split; vm_compute; reflexivity. Qed.

(** ** C5: the watchdog and the miss callback *)

Lemma misses_app (t1 t2 : list Event) : misses (t1 ++ t2) = (misses t1 + misses t2)%nat.
Proof. unfold misses. rewrite List.filter_app. apply length_app. Qed.

(** No reaction of the current client calls the miss callback. *)
Lemma react_no_miss (E : Externals) (c : Kratos.client) (s : Kratos.stimulus)
    (w : World) :
  misses (trace (snd (Kratos.react E c s w))) = misses (trace w).
Proof.
  destruct w as [t st tm wd].
  destruct s; unfold_reaction;
    repeat case_match; simplify_eq; simpl;
    rewrite ?misses_app; unfold misses; simpl; lia.
Qed.

(** C5.  Under every schedule of periods, pongs, [Close] calls and
    resumptions, and whatever the transport answers, the watchdog of
    [kratos.go] never calls the miss callback: the trace has as many calls
    of it after the schedule as before. *)
Theorem watchdog_never_calls_miss_callback (E : Externals) (c : Kratos.client)
    (schedule : list Kratos.stimulus) (w : World) :
  misses (trace (snd (Kratos.system E c schedule w))) = misses (trace w).
Proof.
  revert w. induction schedule as [|s rest IH]; intros w; [reflexivity |].
  simpl. pose proof (react_no_miss E c s w) as Hstep.
  destruct (Kratos.react E c s w) as [o w1]. simpl in Hstep.
  destruct o as [[] | r |]; simpl.
  - specialize (IH w1). destruct (Kratos.system E c rest w1). simpl in *. lia.
  - exact Hstep.
  - specialize (IH w1). destruct (Kratos.system E c rest w1). simpl in *. lia.
Qed.

(** A full period without a pong, on a client made with a miss callback:
    the watchdog writes one ping and calls nothing; a second period without
    a pong does nothing at all, the timer having fired once. *)
Example silent_period_sends_a_ping_only :
  Kratos.handlePingMiss (Kratos.client_pingHandler Scenario.client_ok) <> None
  /\ Kratos.system Scenario.E_ok Scenario.client_ok [Kratos.Elapse]
                   Scenario.started_world
     = ([Return tt],
        {| trace := [EvSetWriteDeadline 7%nat 10;
                     EvWriteMessage 7%nat websocket.PingMessage ""];
           stop := chan_open; pingTimer := timer_idle; watchdog := in_select |})
  /\ Kratos.system Scenario.E_ok Scenario.client_ok [Kratos.Elapse; Kratos.Elapse]
                   Scenario.started_world
     = ([Return tt; Return tt],
        {| trace := [EvSetWriteDeadline 7%nat 10;
                     EvWriteMessage 7%nat websocket.PingMessage ""];
           stop := chan_open; pingTimer := timer_idle; watchdog := in_select |}).
Proof. split; [discriminate | split; vm_compute; reflexivity]. Qed.

(** A pong extends the read deadline by [pongWait]. *)
Example pong_extends_read_deadline :
  Kratos.system Scenario.E_ok Scenario.client_ok [Kratos.Pong] Scenario.started_world
  = ([Return tt],
     {| trace := [EvSetReadDeadline 7%nat 300];
        stop := chan_open; pingTimer := timer_armed; watchdog := in_select |}).
Proof. vm_compute. reflexivity. Qed.

(** The watchdog of the earlier revision does call it: once when a period
    passes without a ping of the peer, staying in its loop; not at all when
    the ping comes first, which rearms the timer; and not again in a second
    silent period, the timer being rearmed by a ping only. *)
Example Legacy_silent_period_calls_miss_callback :
  Legacy.system Scenario.E_ok Scenario.legacy_client_ok [Legacy.Elapse]
                Scenario.started_world
  = ([Return tt],
     {| trace := [EvHandlePingMiss];
        stop := chan_open; pingTimer := timer_idle; watchdog := in_select |})
  /\ Legacy.system Scenario.E_ok Scenario.legacy_client_ok [Legacy.Pinged "hello"]
                   Scenario.started_world
     = ([Return tt],
        {| trace := [EvWriteControl 7%nat websocket.PongMessage "hello" 10];
           stop := chan_open; pingTimer := timer_armed; watchdog := in_select |})
  /\ misses (trace (snd (Legacy.system Scenario.E_ok Scenario.legacy_client_ok
                           [Legacy.Elapse; Legacy.Elapse] Scenario.started_world)))
     = 1%nat.
Proof. repeat split; vm_compute; reflexivity. Qed.

(** ** C10: [Close] and the stop channel *)

(** What [Close] does, by the state of the channel and of the watchdog. *)
Lemma Close_cases (E : Externals) (c : Kratos.client) (w : World) :
  Kratos.Close E c w
  = match stop w with
    | chan_closed => (Panic "send on closed channel", w)
    | chan_nil => (Pending, w)
    | chan_open =>
        match watchdog w with
        | in_select =>
            (Return None,
             set_watchdog returning
               (set_trace (trace w ++ [EvWriteMessage
                                         (Kratos.conn (Kratos.client_pingHandler c))
                                         websocket.CloseMessage ""])%list w))
        | _ => (Pending, w)
        end
    end.
Proof.
  unfold Kratos.Close, Kratos.stopPingHandler, bind.
  destruct (stop w); try reflexivity.
  destruct (watchdog w); reflexivity.
Qed.

(** No stimulus brings a watchdog that left its [select] back into it. *)
Lemma react_stays_out_of_select (E : Externals) (c : Kratos.client)
    (s : Kratos.stimulus) (w : World) :
  watchdog w <> in_select -> watchdog (snd (Kratos.react E c s w)) <> in_select.
Proof.
  destruct w as [t st tm wd]. simpl. intros Hout.
  destruct s; unfold_reaction;
    repeat case_match; simplify_eq; simpl; congruence.
Qed.

Lemma returned_closes_cons (s : Kratos.stimulus) (o : outcome unit)
    (schedule : list Kratos.stimulus) (outcomes : list (outcome unit)) :
  returned_closes (s :: schedule) (o :: outcomes)
  = ((match s, o with Kratos.CallClose, Return _ => 1 | _, _ => 0 end)
     + returned_closes schedule outcomes)%nat.
Proof.
  unfold returned_closes. simpl. destruct s, o; reflexivity.
Qed.

Lemma returned_closes_nil (schedule : list Kratos.stimulus) :
  returned_closes schedule [] = 0%nat.
Proof. destruct schedule; reflexivity. Qed.

Lemma no_Close_returns_out_of_select (E : Externals) (c : Kratos.client)
    (schedule : list Kratos.stimulus) (w : World) :
  watchdog w <> in_select ->
  returned_closes schedule (fst (Kratos.system E c schedule w)) = 0%nat.
Proof.
  revert w. induction schedule as [|s rest IH]; intros w Hout; [reflexivity |].
  simpl. pose proof (react_stays_out_of_select E c s w Hout) as Hstep.
  assert (s = Kratos.CallClose ->
          forall u, fst (Kratos.react E c s w) <> Return u) as Hclose.
  { intros -> u. unfold Kratos.react, bind. rewrite Close_cases.
    destruct (stop w); simpl; try congruence.
    destruct (watchdog w); simpl; congruence. }
  destruct (Kratos.react E c s w) as [o w1]. simpl in Hstep, Hclose.
  specialize (IH w1 Hstep).
  destruct o as [u | r |].
  - destruct (Kratos.system E c rest w1) as [os w2]. simpl in *.
    rewrite returned_closes_cons, IH.
    destruct s; try reflexivity. exfalso. exact (Hclose eq_refl u eq_refl).
  - simpl. rewrite returned_closes_cons, returned_closes_nil.
    destruct s; reflexivity.
  - destruct (Kratos.system E c rest w1) as [os w2]. simpl in *.
    rewrite returned_closes_cons, IH. destruct s; reflexivity.
Qed.

(** C10.  [Close] returns ok only by a rendezvous with a watchdog waiting in
    its [select], which then leaves its loop.  On a watchdog that is not in
    its [select], [Close] does not return: it stays pending on the
    abandoned channel, or panics with a send on the closed channel, and
    the world is as before.  No stimulus brings the watchdog back into its
    [select]; a failed probe write takes it out; out of its loop, its
    deferred function closes the channel.  So in every schedule at most one
    call of [Close] returns. *)
Theorem Close_returns_at_most_once (E : Externals) (c : Kratos.client) :
  (forall w, stop w = chan_open -> watchdog w = in_select ->
     exists w', Kratos.Close E c w = (Return None, w')
                /\ watchdog w' = returning /\ stop w' = chan_open)
  /\ (forall w, watchdog w <> in_select ->
        Kratos.Close E c w = (Pending, w)
        \/ Kratos.Close E c w = (Panic "send on closed channel", w))
  /\ (forall s w, watchdog w <> in_select ->
        watchdog (snd (Kratos.react E c s w)) <> in_select)
  /\ (forall w e, watchdog w = in_select -> pingTimer w = timer_armed ->
        conn_WriteMessage E
          (trace w ++ [EvSetWriteDeadline (Kratos.conn (Kratos.client_pingHandler c))
                                          Kratos.writeWait])%list
          (Kratos.conn (Kratos.client_pingHandler c)) websocket.PingMessage ""
        = Some e ->
        watchdog (snd (Kratos.react E c Kratos.Elapse w)) = returning)
  /\ (forall w, watchdog w = returning -> stop w = chan_open ->
        fst (Kratos.react E c Kratos.Resume w) = Return tt
        /\ watchdog (snd (Kratos.react E c Kratos.Resume w)) = finished
        /\ stop (snd (Kratos.react E c Kratos.Resume w)) = chan_closed)
  /\ (forall schedule w,
        (returned_closes schedule (fst (Kratos.system E c schedule w)) <= 1)%nat).
Proof.
  split; [| split; [| split; [| split; [| split]]]].
  - intros w Hopen Hin. rewrite Close_cases, Hopen, Hin.
    eexists. split; [reflexivity |]. split; [reflexivity | exact Hopen].
  - intros w Hout. rewrite Close_cases.
    destruct (stop w); [left | | right]; try reflexivity.
    destruct (watchdog w); try (left; reflexivity). congruence.
  - intros s w. apply react_stays_out_of_select.
  - intros w e Hin Harmed Hwrite.
    destruct w as [t st tm wd]. simpl in *. subst tm wd.
    unfold_reaction. rewrite Hwrite. reflexivity.
  - intros w Hreturning Hopen.
    destruct w as [t st tm wd]. simpl in *. subst. repeat split.
  - intros schedule. induction schedule as [|s rest IH]; intros w.
    + unfold returned_closes. simpl. lia.
    + simpl.
      assert (watchdog w = in_select \/ watchdog w <> in_select) as [Hin | Hout]
        by (destruct (watchdog w); auto; right; discriminate).
      * pose proof (Close_cases E c w) as Hclose.
        destruct (Kratos.react E c s w) as [o w1] eqn:Hreact.
        destruct o as [u | r |].
        -- destruct s.
           ++ specialize (IH w1). destruct (Kratos.system E c rest w1) as [os w2].
              simpl in *. rewrite returned_closes_cons. lia.
           ++ specialize (IH w1). destruct (Kratos.system E c rest w1) as [os w2].
              simpl in *. rewrite returned_closes_cons. lia.
           ++ assert (watchdog w1 <> in_select) as Hout1.
              { unfold Kratos.react, bind in Hreact. rewrite Hclose in Hreact.
                destruct (stop w); try discriminate Hreact.
                rewrite Hin in Hreact. injection Hreact as _ <-. discriminate. }
              pose proof (no_Close_returns_out_of_select E c rest w1 Hout1) as Hzero.
              destruct (Kratos.system E c rest w1) as [os w2].
              simpl in *. rewrite returned_closes_cons, Hzero. lia.
           ++ specialize (IH w1). destruct (Kratos.system E c rest w1) as [os w2].
              simpl in *. rewrite returned_closes_cons. lia.
        -- simpl. rewrite returned_closes_cons, returned_closes_nil.
           destruct s; simpl; lia.
        -- specialize (IH w1). destruct (Kratos.system E c rest w1) as [os w2].
           simpl in *. rewrite returned_closes_cons. destruct s; lia.
      * pose proof (no_Close_returns_out_of_select E c (s :: rest) w Hout) as Hzero.
        simpl in Hzero. rewrite Hzero. lia.
Qed.

Lemma Close_returns_at_most_once_witness :
  (exists w', Kratos.Close Scenario.E_ok Scenario.client_ok Scenario.started_world
              = (Return None, w')
              /\ watchdog w' = returning /\ stop w' = chan_open)
  /\ watchdog (snd (Kratos.react Scenario.E_dead Scenario.client_ok Kratos.Elapse
                                 Scenario.started_world)) = returning
  /\ (returned_closes
        [Kratos.CallClose; Kratos.CallClose; Kratos.Resume; Kratos.CallClose]
        (fst (Kratos.system Scenario.E_ok Scenario.client_ok
                [Kratos.CallClose; Kratos.CallClose; Kratos.Resume; Kratos.CallClose]
                Scenario.started_world)) <= 1)%nat.
Proof.
  pose proof (Close_returns_at_most_once Scenario.E_ok Scenario.client_ok)
    as (Hfirst & _ & _ & _ & _ & Hcount).
  pose proof (Close_returns_at_most_once Scenario.E_dead Scenario.client_ok)
    as (_ & _ & _ & Hprobe & _).
  split; [apply Hfirst; reflexivity |].
  split; [| apply Hcount].
  apply (Hprobe Scenario.started_world (errors_New "write: broken pipe"));
    reflexivity.
Defined.

(** A second [Close] stays pending while the watchdog has not run its
    deferred calls and panics once it has; after a failed probe write the
    first [Close] already meets that fate. *)
Example second_Close_and_Close_after_probe_failure :
  fst (Kratos.system Scenario.E_ok Scenario.client_ok
         [Kratos.CallClose; Kratos.CallClose; Kratos.Resume; Kratos.CallClose]
         Scenario.started_world)
  = [Return tt; Pending; Return tt; Panic "send on closed channel"]
  /\ fst (Kratos.system Scenario.E_dead Scenario.client_ok
            [Kratos.Elapse; Kratos.CallClose; Kratos.Resume; Kratos.CallClose]
            Scenario.started_world)
     = [Return tt; Pending; Return tt; Panic "send on closed channel"]
  /\ trace (snd (Kratos.system Scenario.E_dead Scenario.client_ok
                   [Kratos.Elapse; Kratos.CallClose; Kratos.Resume; Kratos.CallClose]
                   Scenario.started_world))
     = [EvSetWriteDeadline 7%nat 10;
        EvWriteMessage 7%nat websocket.PingMessage "";
        EvClose 7%nat].
Proof. repeat split; vm_compute; reflexivity. Qed.

(** The world [New] leaves behind has the watchdog in its [select] with the
    stop channel open and the timer running. *)
Example New_starts_the_watchdog :
  stop (snd (run (Kratos.New Scenario.E_ok Scenario.f_ok))) = chan_open
  /\ watchdog (snd (run (Kratos.New Scenario.E_ok Scenario.f_ok))) = in_select
  /\ pingTimer (snd (run (Kratos.New Scenario.E_ok Scenario.f_ok))) = timer_armed
  /\ started (trace (snd (run (Kratos.New Scenario.E_ok Scenario.f_ok))))
     = [go_checkPing; go_read].
Proof. repeat split; vm_compute; reflexivity. Qed.

(** * Further properties of the code *)

(** ** The failures of connection establishment *)

(** [New] hands on every error of [createConnection], with the world that
    call left. *)
Lemma New_createConnection_error (E : Externals) (f : ClientFactory)
    (w w' : World) (c : option Conn) (u : string) (e : error) :
  Kratos.createConnection E (inHeader_of f) (DestinationURL f) (CRT f) (Key f) w
  = (Return (c, u, Some e), w') ->
  Kratos.New E f w = (Return (None, Some e), w').
Proof. intros H. unfold Kratos.New, bind. rewrite H. reflexivity. Qed.

Lemma tls_setup_both_named (E : Externals) (crtFile keyFile : string) :
  crtFile <> "" -> keyFile <> "" ->
  Kratos.tls_setup E crtFile keyFile
  = match tls_LoadX509KeyPair E crtFile keyFile with
    | Some err => ({| Transport := None |}, Dialer_zero, Some err)
    | None =>
        ({| Transport :=
              Some {| DialTimeout := 30; KeepAlive := 300; TLSHandshakeTimeout := 5;
                      Transport_TLSClientConfig :=
                        {| crtFile := crtFile; keyFile := keyFile |} |} |},
         {| TLSClientConfig := Some {| crtFile := crtFile; keyFile := keyFile |};
            HandshakeTimeout := 10; ReadBufferSize := 65535;
            WriteBufferSize := 65535 |},
         None)
    end.
Proof.
  intros Hcrt Hkey. unfold Kratos.tls_setup.
  rewrite !bool_decide_eq_true_2 by assumption. reflexivity.
Qed.

Lemma tls_setup_one_missing (E : Externals) (crtFile keyFile : string) :
  crtFile = "" \/ keyFile = "" ->
  Kratos.tls_setup E crtFile keyFile = ({| Transport := None |}, Dialer_zero, None).
Proof.
  intros Hmissing. unfold Kratos.tls_setup.
  destruct Hmissing as [-> | ->]; [reflexivity |].
  rewrite (bool_decide_eq_false_2 ("" ≠ "")) by (intros H; exact (H eq_refl)).
  rewrite andb_false_r. reflexivity.
Qed.

(** X1.  With both a certificate file and a key file named, a key pair that
    does not load ends construction with the error of the loader, before
    any request or dial: the world is as before. *)
Theorem New_certificate_error_before_network (E : Externals)
    (f : ClientFactory) (err : error) (w : World) :
  device_ParseID E (DeviceName f) = None ->
  CRT f <> "" -> Key f <> "" ->
  tls_LoadX509KeyPair E (CRT f) (Key f) = Some err ->
  Kratos.New E f w = (Return (None, Some err), w).
Proof.
  intros Hid Hcrt Hkey Hload.
  apply (New_createConnection_error E f w w None "").
  unfold Kratos.createConnection. simpl. rewrite Hid.
  rewrite (tls_setup_both_named E _ _ Hcrt Hkey), Hload. reflexivity.
Qed.

Lemma New_certificate_error_before_network_witness :
  run (Kratos.New Faults.E_bad_certificate
                  (Faults.with_files Scenario.f_ok "client.crt" "client.key"))
  = (Return (None, Some (errors_New "tls: failed to find any PEM data")),
     World_init).
Proof.
  apply (New_certificate_error_before_network Faults.E_bad_certificate
           (Faults.with_files Scenario.f_ok "client.crt" "client.key"));
    [reflexivity | discriminate | discriminate | reflexivity].
Defined.

(** X2.  A certificate file without a key file, or a key file without a
    certificate file, is ignored: the key pair is not loaded and
    [createConnection] does exactly what it does with neither. *)
Theorem createConnection_ignores_half_a_key_pair (E : Externals)
    (headerInfo : clientHeader) (httpURL crtFile keyFile : string) (w : World) :
  crtFile = "" \/ keyFile = "" ->
  Kratos.createConnection E headerInfo httpURL crtFile keyFile w
  = Kratos.createConnection E headerInfo httpURL "" "" w.
Proof.
  intros Hmissing. unfold Kratos.createConnection.
  rewrite (tls_setup_one_missing E crtFile keyFile Hmissing).
  rewrite (tls_setup_one_missing E "" "" (or_introl eq_refl)). reflexivity.
Qed.

Lemma createConnection_ignores_half_a_key_pair_witness :
  Kratos.createConnection Faults.E_bad_certificate (inHeader_of Scenario.f_ok)
                          "http://petasos:6400/" "client.crt" "" World_init
  = Kratos.createConnection Faults.E_bad_certificate (inHeader_of Scenario.f_ok)
                            "http://petasos:6400/" "" "" World_init.
Proof.
  apply (createConnection_ignores_half_a_key_pair Faults.E_bad_certificate).
  right. reflexivity.
Defined.

(** X3.  A discovery URL that does not parse makes [New] panic on the nil
    request, the error of [http.NewRequest] being overwritten unread; no
    request is sent. *)
Theorem New_panics_on_bad_URL (E : Externals) (f : ClientFactory)
    (client : http_Client) (dialer : Dialer) (err : error) (w : World) :
  device_ParseID E (DeviceName f) = None ->
  Kratos.tls_setup E (CRT f) (Key f) = (client, dialer, None) ->
  url_Parse E (DestinationURL f) = Some err ->
  Kratos.New E f w = (Panic nil_dereference, w).
Proof.
  intros Hid Htls Hurl.
  unfold Kratos.New, Kratos.createConnection, http_NewRequest, bind. simpl.
  rewrite Hid, Htls, Hurl. reflexivity.
Qed.

Lemma New_panics_on_bad_URL_witness :
  run (Kratos.New Faults.E_bad_URL Scenario.f_ok)
  = (Panic nil_dereference, World_init).
Proof.
  apply (New_panics_on_bad_URL Faults.E_bad_URL Scenario.f_ok
           {| Transport := None |} Dialer_zero (errors_New "parse: invalid URL"));
    reflexivity.
Defined.

(** X4.  When the discovery request fails, [New] returns the error of the
    HTTP client; the request is the only event, nothing is dialed. *)
Theorem New_returns_discovery_error (E : Externals) (f : ClientFactory)
    (client : http_Client) (dialer : Dialer) (resp : option http.Response)
    (err : error) (w : World) :
  device_ParseID E (DeviceName f) = None ->
  Kratos.tls_setup E (CRT f) (Key f) = (client, dialer, None) ->
  url_Parse E (DestinationURL f) = None ->
  client_Do E client (device_name_request (inHeader_of f) (DestinationURL f))
  = (resp, Some err) ->
  Kratos.New E f w
  = (Return (None, Some err),
     set_trace (trace w ++ [EvDo client (device_name_request (inHeader_of f)
                                           (DestinationURL f))])%list w).
Proof.
  intros Hid Htls Hurl Hdo.
  apply (New_createConnection_error E f w _ None "").
  rewrite (createConnection_discovery E (inHeader_of f) (DestinationURL f)
             (CRT f) (Key f) client dialer w Hid Htls Hurl).
  cbv zeta. rewrite Hdo. reflexivity.
Qed.

Lemma New_returns_discovery_error_witness :
  run (Kratos.New Faults.E_unreachable Scenario.f_ok)
  = (Return (None, Some (errors_New "dial tcp: connection refused")),
     set_trace [EvDo {| Transport := None |}
                     (device_name_request (inHeader_of Scenario.f_ok)
                                          "http://petasos:6400/")] World_init).
Proof.
  apply (New_returns_discovery_error Faults.E_unreachable Scenario.f_ok
           {| Transport := None |} Dialer_zero None
           (errors_New "dial tcp: connection refused") World_init);
    reflexivity.
Defined.

(** X5.  A discovery answer with a prior response and no [307] on either of
    the two ends construction with the error [createError] builds from the
    answer, wrapped around "Received invalid response from petasos!";
    nothing is dialed. *)
Theorem New_returns_server_error (E : Externals) (f : ClientFactory)
    (client : http_Client) (dialer : Dialer) (resp prior : http.Response)
    (w : World) :
  device_ParseID E (DeviceName f) = None ->
  Kratos.tls_setup E (CRT f) (Key f) = (client, dialer, None) ->
  url_Parse E (DestinationURL f) = None ->
  client_Do E client (device_name_request (inHeader_of f) (DestinationURL f))
  = (Some resp, None) ->
  http.Request_Response resp = Some prior ->
  http.StatusCode resp <> 307 ->
  http.StatusCode prior <> 307 ->
  Kratos.New E f w
  = (Return (None,
             Some (createError E resp
                     (errors_New "Received invalid response from petasos!"))),
     set_trace (trace w ++ [EvDo client (device_name_request (inHeader_of f)
                                           (DestinationURL f))])%list w).
Proof.
  intros Hid Htls Hurl Hdo Hprior Hresp Hp.
  apply (New_createConnection_error E f w _ None "").
  rewrite (createConnection_discovery E (inHeader_of f) (DestinationURL f)
             (CRT f) (Key f) client dialer w Hid Htls Hurl).
  cbv zeta. rewrite Hdo. cbn [fst snd].
  unfold Kratos.after_discovery. rewrite Hprior.
  unfold http.StatusTemporaryRedirect.
  apply Z.eqb_neq in Hresp, Hp. rewrite Hresp, Hp. reflexivity.
Qed.

Lemma New_returns_server_error_witness :
  run (Kratos.New Scenario.E_not_found Scenario.f_ok)
  = (Return (None,
             Some (createError Scenario.E_not_found Scenario.not_found
                     (errors_New "Received invalid response from petasos!"))),
     set_trace [EvDo {| Transport := None |}
                     (device_name_request (inHeader_of Scenario.f_ok)
                                          "http://petasos:6400/")] World_init).
Proof.
  apply (New_returns_server_error Scenario.E_not_found Scenario.f_ok
           {| Transport := None |} Dialer_zero Scenario.not_found
           (Scenario.response 302 "http://elsewhere:6400/" "" None) World_init);
    try reflexivity; discriminate.
Defined.

(** X6.  When the dial of the redirect fails, [New] returns the error of the
    dialer: after the request and the dial nothing else happens, no
    deadline is set and no goroutine started. *)
Theorem New_returns_dial_error (E : Externals) (f : ClientFactory)
    (client : http_Client) (dialer : Dialer) (resp prior : http.Response)
    (conn : option Conn) (upgrade : option http.Response) (err : error)
    (w : World) :
  device_ParseID E (DeviceName f) = None ->
  Kratos.tls_setup E (CRT f) (Key f) = (client, dialer, None) ->
  url_Parse E (DestinationURL f) = None ->
  client_Do E client (device_name_request (inHeader_of f) (DestinationURL f))
  = (Some resp, None) ->
  http.Request_Response resp = Some prior ->
  http.StatusCode resp = 307 \/ http.StatusCode prior = 307 ->
  let wsURL := strings.Replace (redirect_location resp prior) "http" "ws" 1
               +:+ "/api/v2/device" in
  dialer_Dial E dialer wsURL (identity_headers (inHeader_of f))
  = (conn, upgrade, Some err) ->
  Kratos.New E f w
  = (Return (None, Some err),
     set_trace (trace w ++ [EvDo client (device_name_request (inHeader_of f)
                                           (DestinationURL f));
                            EvDial dialer wsURL
                                   (identity_headers (inHeader_of f))])%list w).
Proof.
  intros Hid Htls Hurl Hdo Hprior Hstatus wsURL Hdial.
  apply (New_createConnection_error E f w _ None "").
  rewrite (createConnection_discovery E (inHeader_of f) (DestinationURL f)
             (CRT f) (Key f) client dialer w Hid Htls Hurl).
  cbv zeta. rewrite Hdo. cbn [fst snd].
  rewrite (after_discovery_redirect E dialer (identity_headers (inHeader_of f))
             resp prior _ Hprior Hstatus).
  fold wsURL. rewrite Hdial. cbn [fst snd trace set_trace].
  rewrite <- app_assoc. reflexivity.
Qed.

Lemma New_returns_dial_error_witness :
  run (Kratos.New Faults.E_refused Scenario.f_ok)
  = (Return (None, Some (errors_New "websocket: bad handshake")),
     set_trace [EvDo {| Transport := None |}
                     (device_name_request (inHeader_of Scenario.f_ok)
                                          "http://petasos:6400/");
                EvDial Dialer_zero "ws://host:1234/path/api/v2/device"
                       (identity_headers (inHeader_of Scenario.f_ok))]
               World_init).
Proof.
  apply (New_returns_dial_error Faults.E_refused Scenario.f_ok
           {| Transport := None |} Dialer_zero Scenario.followed_redirect
           Scenario.redirect None None (errors_New "websocket: bad handshake")
           World_init);
    try reflexivity.
  right. reflexivity.
Defined.

(** ** The connect URL *)

Lemma substring_whole (s : string) (m : nat) :
  (String.length s <= m)%nat -> String.substring 0 m s = s.
Proof.
  revert m. induction s as [|a s IH]; intros m Hm.
  - destruct m; reflexivity.
  - destruct m as [|m]; simpl in *; [lia |]. rewrite IH by lia. reflexivity.
Qed.

Lemma Replace_no_instance (s old new : string) (n : Z) :
  strings.Index s old < 0 -> strings.Replace s old new n = s.
Proof.
  intros Hnone. unfold strings.Replace.
  destruct (decide (old = "")); [reflexivity |].
  destruct (decide (old = new)); [reflexivity |].
  destruct (if n <? 0 then S (String.length s) else Z.to_nat n) as [|k];
    [reflexivity |].
  simpl. apply Z.ltb_lt in Hnone. rewrite Hnone. reflexivity.
Qed.

Lemma append_String (a : Ascii.ascii) (s t : string) :
  String a s +:+ t = String a (s +:+ t).
Proof. reflexivity. Qed.

Lemma append_EmptyString (t : string) : "" +:+ t = t.
Proof. reflexivity. Qed.

Lemma append_assoc (s t u : string) : (s +:+ t) +:+ u = s +:+ (t +:+ u).
Proof.
  induction s as [|a s IH]; [reflexivity |].
  rewrite !append_String. f_equal. exact IH.
Qed.

Lemma length_append (s t : string) :
  String.length (s +:+ t) = (String.length s + String.length t)%nat.
Proof.
  induction s as [|a s IH].
  - rewrite append_EmptyString. reflexivity.
  - rewrite append_String. simpl. rewrite IH. reflexivity.
Qed.

Lemma substring_prefix (s t : string) :
  String.substring 0 (String.length s) (s +:+ t) = s.
Proof.
  induction s as [|a s IH].
  - rewrite append_EmptyString. destruct t; reflexivity.
  - rewrite append_String. simpl. rewrite IH. reflexivity.
Qed.

Lemma substring_skip (p s : string) (n : nat) :
  String.substring (String.length p) n (p +:+ s) = String.substring 0 n s.
Proof.
  induction p as [|a p IH].
  - rewrite append_EmptyString. reflexivity.
  - rewrite append_String. simpl. exact IH.
Qed.

Lemma Index_prefix (s substr : string) :
  String.prefix substr s = true -> strings.Index s substr = 0.
Proof.
  intros H. destruct s as [|a s].
  - destruct substr; [reflexivity | discriminate H].
  - change (strings.Index (String a s) substr)
      with (if String.prefix substr (String a s) then 0
            else let r := strings.Index s substr in if r <? 0 then -1 else 1 + r).
    rewrite H. reflexivity.
Qed.

Lemma Replace_http_prefix (rest : string) :
  strings.Replace ("http" +:+ rest) "http" "ws" 1 = "ws" +:+ rest.
Proof.
  rewrite !append_String, append_EmptyString.
  unfold strings.Replace.
  destruct (decide ("http" = "")) as [H|_]; [discriminate H |].
  destruct (decide ("http" = "ws")) as [H|_]; [discriminate H |].
  change (if 1 <? 0 then _ else Z.to_nat 1) with 1%nat.
  cbn [strings.replace_n].
  match goal with
  | |- context [strings.Index ?s "http"] =>
      assert (strings.Index s "http" = 0) as ->
        by (apply Index_prefix; destruct rest; reflexivity)
  end.
  change (0 <? 0) with false. cbv iota.
  change (Z.to_nat 0 + String.length "http")%nat with 4%nat.
  change (Z.to_nat 0) with 0%nat.
  cbn [String.substring].
  rewrite substring_whole by (simpl; lia).
  rewrite !append_String, !append_EmptyString. reflexivity.
Qed.

Lemma redirect_wsURL_location (resp prior : http.Response) :
  Kratos.redirect_wsURL resp prior
  = strings.Replace (redirect_location resp prior) "http" "ws" 1
    +:+ "/api/v2/device".
Proof.
  unfold Kratos.redirect_wsURL, redirect_location.
  destruct (decide (http.Header_Get (http.Response_Header resp) "Location" = ""))
    as [Hloc | Hloc].
  - rewrite bool_decide_eq_false_2; [reflexivity | intros Hne; exact (Hne Hloc)].
  - rewrite bool_decide_eq_true_2; [reflexivity | exact Hloc].
Qed.

Lemma prefix_empty (s : string) : String.prefix "" s = true.
Proof. destruct s; reflexivity. Qed.

Lemma Index_String (a : Ascii.ascii) (s substr : string) :
  strings.Index (String a s) substr
  = if String.prefix substr (String a s) then 0
    else if strings.Index s substr <? 0 then -1 else 1 + strings.Index s substr.
Proof. reflexivity. Qed.

Lemma Index_lower (s substr : string) : -1 <= strings.Index s substr.
Proof.
  induction s as [|a s IH].
  - cbn [strings.Index]. destruct (String.prefix substr ""); lia.
  - rewrite Index_String. destruct (String.prefix substr (String a s)); [lia |].
    destruct (strings.Index s substr <? 0) eqn:Hr; [lia |].
    apply Z.ltb_ge in Hr. lia.
Qed.

(** Whether a text starts with [http] is decided by its first four bytes. *)
Lemma prefix_http_window (a : Ascii.ascii) (p rest : string) :
  String.prefix "http" (String a (p +:+ "htt"))
  = String.prefix "http" (String a (p +:+ "http" +:+ rest)).
Proof.
  destruct p as [|b [|c [|d p]]];
    rewrite ?append_String, ?append_EmptyString; cbn [String.prefix];
    repeat match goal with
           | |- context [Ascii.ascii_dec ?x ?y] => destruct (Ascii.ascii_dec x y)
           end;
    rewrite ?prefix_empty; try reflexivity; congruence.
Qed.

(** The first instance of [http]: no instance starts within [pre]. *)
Lemma Index_first_http (pre rest : string) :
  strings.Index (pre +:+ "htt") "http" < 0 ->
  strings.Index (pre +:+ "http" +:+ rest) "http" = Z.of_nat (String.length pre).
Proof.
  induction pre as [|a pre IH]; intros Hnone.
  - rewrite append_EmptyString. apply Index_prefix. destruct rest; reflexivity.
  - rewrite append_String, Index_String in Hnone.
    rewrite append_String, Index_String.
    rewrite <- (prefix_http_window a pre rest).
    destruct (String.prefix "http" (String a (pre +:+ "htt"))); [lia |].
    pose proof (Index_lower (pre +:+ "htt") "http") as Hlow.
    destruct (strings.Index (pre +:+ "htt") "http" <? 0) eqn:Hr;
      [| apply Z.ltb_ge in Hr; lia].
    apply Z.ltb_lt in Hr. rewrite (IH Hr).
    assert ((Z.of_nat (String.length pre) <? 0) = false) as ->
      by (apply Z.ltb_ge; lia).
    simpl String.length. lia.
Qed.

Lemma Replace_first_http (pre rest : string) :
  strings.Index (pre +:+ "htt") "http" < 0 ->
  strings.Replace (pre +:+ "http" +:+ rest) "http" "ws" 1 = pre +:+ "ws" +:+ rest.
Proof.
  intros Hnone. unfold strings.Replace.
  destruct (decide ("http" = "")) as [H|_]; [discriminate H |].
  destruct (decide ("http" = "ws")) as [H|_]; [discriminate H |].
  change (if 1 <? 0 then _ else Z.to_nat 1) with 1%nat.
  cbn [strings.replace_n].
  rewrite (Index_first_http pre rest Hnone).
  assert ((Z.of_nat (String.length pre) <? 0) = false) as ->
    by (apply Z.ltb_ge; lia).
  rewrite Nat2Z.id, substring_prefix.
  change (String.length "http") with (String.length "http" + 0)%nat.
  replace (String.length pre + (String.length "http" + 0))%nat
    with (String.length (pre +:+ "http")) by (rewrite length_append; simpl; lia).
  rewrite <- (append_assoc pre "http" rest).
  rewrite substring_skip, substring_whole by (rewrite !length_append; lia).
  reflexivity.
Qed.

(** X7.  The connect URL is the redirect location with its first instance
    of [http] replaced by [ws], wherever in the location that instance is,
    and with the device suffix appended: what stands before the instance
    and what follows it, later instances of [http] included, stay as they
    are.  So [http://] becomes [ws://] and [https://] becomes [wss://].  A
    location that holds no [http] at all is used as it is, suffix
    appended. *)
Theorem connect_URL_rewrites_first_http (resp prior : http.Response) :
  (forall pre rest,
     redirect_location resp prior = pre +:+ "http" +:+ rest ->
     strings.Index (pre +:+ "htt") "http" < 0 ->
     Kratos.redirect_wsURL resp prior = pre +:+ "ws" +:+ rest +:+ "/api/v2/device")
  /\ (strings.Index (redirect_location resp prior) "http" < 0 ->
        Kratos.redirect_wsURL resp prior
        = redirect_location resp prior +:+ "/api/v2/device").
Proof.
  split.
  - intros pre rest Hloc Hfirst.
    rewrite redirect_wsURL_location, Hloc, (Replace_first_http pre rest Hfirst).
    rewrite !append_assoc. reflexivity.
  - intros Hnone. rewrite redirect_wsURL_location, Replace_no_instance by exact Hnone.
    reflexivity.
Qed.

Lemma connect_URL_rewrites_first_http_witness :
  Kratos.redirect_wsURL (Scenario.followed "https://talaria.example:8080/http")
                        (Scenario.redirect_to "https://talaria.example:8080/http")
  = "wss://talaria.example:8080/http/api/v2/device"
  /\ Kratos.redirect_wsURL (Scenario.followed "//talaria:8080/http")
                           (Scenario.redirect_to "//talaria:8080/http")
     = "//talaria:8080/ws/api/v2/device"
  /\ Kratos.redirect_wsURL (Scenario.followed "/v2/talaria")
                           (Scenario.redirect_to "/v2/talaria")
     = "/v2/talaria/api/v2/device".
Proof.
  split; [| split].
  - apply (proj1 (connect_URL_rewrites_first_http
                    (Scenario.followed "https://talaria.example:8080/http")
                    (Scenario.redirect_to "https://talaria.example:8080/http"))
             "" "s://talaria.example:8080/http");
      reflexivity.
  - apply (proj1 (connect_URL_rewrites_first_http
                    (Scenario.followed "//talaria:8080/http")
                    (Scenario.redirect_to "//talaria:8080/http"))
             "//talaria:8080/" "");
      reflexivity.
  - apply (proj2 (connect_URL_rewrites_first_http
                    (Scenario.followed "/v2/talaria")
                    (Scenario.redirect_to "/v2/talaria"))).
    reflexivity.
Defined.

(** ** What [New] returns *)

(** X9.  Whenever [New] returns, it returns a client with a nil error or no
    client with an error, never both and never neither. *)
Theorem New_returns_client_or_error (E : Externals) (f : ClientFactory)
    (w w' : World) (r : option Kratos.client * option error) :
  Kratos.New E f w = (Return r, w') ->
  (exists c, r = (Some c, None)) \/ (exists e, r = (None, Some e)).
Proof.
  unfold Kratos.New, bind.
  destruct (Kratos.createConnection E (inHeader_of f) (DestinationURL f)
              (CRT f) (Key f) w) as [[[[[conn|] u] [e|]] | reason |] w1];
    simpl; try discriminate;
    try (intros H; injection H as <- _; right; eexists; reflexivity).
  destruct (compileHandlers E (Handlers f)) as [handlers' [e|]]; simpl;
    intros H; injection H as <- _; [right | left]; eexists; reflexivity.
Qed.

Lemma New_returns_client_or_error_witness :
  (exists c, (Some Scenario.client_ok, @None error) = (Some c, None))
  \/ (exists e, (Some Scenario.client_ok, @None error) = (None, Some e)).
Proof.
  apply (New_returns_client_or_error Scenario.E_ok Scenario.f_ok World_init
           (snd (run (Kratos.New Scenario.E_ok Scenario.f_ok)))).
  vm_compute. reflexivity.
Defined.

Lemma compileHandlers_success (E : Externals) (handlers : list HandlerRegistry) :
  snd (compileHandlers E handlers) = None ->
  fst (compileHandlers E handlers) = map (compiled E) handlers.
Proof.
  induction handlers as [|h rest IH]; [reflexivity |].
  simpl. unfold compiled at 1.
  destruct (regexp_Compile E (HandlerKey h)) as [re [e|]]; simpl; [discriminate |].
  destruct (compileHandlers E rest) as [rest' err']. simpl in *.
  intros Herr. rewrite (IH Herr). reflexivity.
Qed.

(** X10.  A construction that succeeds consists of exactly seven outside
    events: the discovery request, the dial of the URL that becomes the
    hostname, then on the new connection the read limit of 2048, the read
    deadline of 300 seconds and the pong handler, then the start of the
    watchdog and of the read loop.  It leaves the stop channel open, the
    timer running and the watchdog in its [select], and the client holds
    the device name, the user agent made of firmware, model and
    manufacturer, and every registration with its pattern compiled. *)
Theorem New_success (E : Externals) (f : ClientFactory) (w w' : World)
    (c : Kratos.client) (err : option error) :
  Kratos.New E f w = (Return (Some c, err), w') ->
  err = None
  /\ (exists client req dialer,
        trace w' = (trace w
                    ++ [EvDo client req;
                        EvDial dialer (Kratos.Hostname c)
                               (identity_headers (inHeader_of f))]
                    ++ New_tail (Kratos.connection c))%list)
  /\ stop w' = chan_open /\ pingTimer w' = timer_armed /\ watchdog w' = in_select
  /\ Kratos.deviceID c = DeviceName f
  /\ Kratos.userAgent c
     = "WebPA-1.6(" +:+ FirmwareName f +:+ ";" +:+ ModelName f +:+ "/"
       +:+ Manufacturer f +:+ ";)"
  /\ Kratos.conn (Kratos.client_pingHandler c) = Kratos.connection c
  /\ Kratos.handlePingMiss (Kratos.client_pingHandler c) = Factory_HandlePingMiss f
  /\ Kratos.handlers c = map (compiled E) (Handlers f).
Proof.
  unfold Kratos.New, bind.
  pose proof (createConnection_events E (inHeader_of f) (DestinationURL f)
                (CRT f) (Key f) w) as Hevents. cbv zeta in Hevents.
  destruct (Kratos.createConnection E (inHeader_of f) (DestinationURL f)
              (CRT f) (Key f) w) as [[[[[conn|] u] [e|]] | reason |] w1];
    simpl in *; try discriminate.
  pose proof (compileHandlers_success E (Handlers f)) as Hcompiled.
  destruct (compileHandlers E (Handlers f)) as [handlers' [e|]]; simpl in *;
    [discriminate |].
  intros H. injection H as <- <- <-. simpl.
  destruct Hevents as [[_ Hno] | [(client & req & _ & Hno)
                                 | (client & req & dialer & u' & -> & Hu)]];
    try (exfalso; exact (Hno conn u None eq_refl)).
  rewrite (Hu conn u None eq_refl). simpl.
  split; [reflexivity |]. split.
  - exists client, req, dialer. unfold New_tail.
    rewrite <- !app_assoc. reflexivity.
  - repeat split. exact (Hcompiled eq_refl).
Qed.

Lemma New_success_witness :
  stop (snd (run (Kratos.New Scenario.E_ok Scenario.f_ok))) = chan_open
  /\ Kratos.handlers Scenario.client_ok
     = map (compiled Scenario.E_ok) (Handlers Scenario.f_ok).
Proof.
  pose proof (New_success Scenario.E_ok Scenario.f_ok World_init
                (snd (run (Kratos.New Scenario.E_ok Scenario.f_ok)))
                Scenario.client_ok None) as H.
  destruct H as (_ & _ & Hstop & _ & _ & _ & _ & _ & _ & Hhandlers).
  - vm_compute. reflexivity.
  - split; [exact Hstop | exact Hhandlers].
Defined.

(** ** The compilation of the patterns *)

(** X11.  Compiling the patterns keeps the registrations in their order,
    each with its pattern text and its handler, whether the compilation
    succeeds or not; when it succeeds, every registration holds the
    compiled form of its own pattern. *)
Theorem compileHandlers_keeps_registrations (E : Externals)
    (handlers : list HandlerRegistry) :
  map HandlerKey (fst (compileHandlers E handlers)) = map HandlerKey handlers
  /\ map Handler (fst (compileHandlers E handlers)) = map Handler handlers
  /\ (snd (compileHandlers E handlers) = None ->
      Forall2 (fun h h' => keyRegex h' = fst (regexp_Compile E (HandlerKey h)))
              handlers (fst (compileHandlers E handlers))).
Proof.
  induction handlers as [|h rest (IHkey & IHhandler & IHre)]; simpl.
  - repeat split. constructor.
  - destruct (regexp_Compile E (HandlerKey h)) as [re [e|]] eqn:Hre; simpl.
    + repeat split. discriminate.
    + destruct (compileHandlers E rest) as [rest' err']. simpl in *.
      rewrite IHkey, IHhandler. repeat split.
      intros ->. constructor; [simpl; rewrite Hre; reflexivity | auto].
Qed.

Lemma compileHandlers_keeps_registrations_witness :
  map HandlerKey (fst (compileHandlers Scenario.E_ok (Handlers Scenario.f_bad_pattern)))
  = ["/foo"; "("]
  /\ Forall2 (fun h h' => keyRegex h'
                          = fst (regexp_Compile Scenario.E_ok (HandlerKey h)))
             (Handlers Scenario.f_ok)
             (fst (compileHandlers Scenario.E_ok (Handlers Scenario.f_ok))).
Proof.
  split.
  - exact (proj1 (compileHandlers_keeps_registrations Scenario.E_ok
                    (Handlers Scenario.f_bad_pattern))).
  - apply (proj2 (proj2 (compileHandlers_keeps_registrations Scenario.E_ok
                           (Handlers Scenario.f_ok)))).
    reflexivity.
Defined.

(** X12.  The compilation stops at the first pattern that does not compile:
    the registrations before it hold their compiled patterns, the failing
    one holds what the compiler returned with its error, the ones after it
    are as the caller passed them, and the error returned is that of the
    failing pattern. *)
Theorem compileHandlers_stops_at_first_error (E : Externals)
    (handlers : list HandlerRegistry) (e : error) :
  snd (compileHandlers E handlers) = Some e ->
  exists before h after,
    handlers = (before ++ h :: after)%list
    /\ Forall (fun h => snd (regexp_Compile E (HandlerKey h)) = None) before
    /\ snd (regexp_Compile E (HandlerKey h)) = Some e
    /\ fst (compileHandlers E handlers)
       = (map (compiled E) before ++ compiled E h :: after)%list.
Proof.
  induction handlers as [|h rest IH]; simpl; [discriminate |].
  destruct (regexp_Compile E (HandlerKey h)) as [re [e'|]] eqn:Hre; simpl.
  - intros H. injection H as ->. exists [], h, rest. simpl.
    unfold compiled. rewrite Hre. repeat split. constructor.
  - destruct (compileHandlers E rest) as [rest' err']. simpl in *.
    intros Herr. destruct (IH Herr) as (before & h' & after & -> & Hok & Hbad & Hfst).
    exists (h :: before), h', after. simpl. repeat split.
    + constructor; [rewrite Hre; reflexivity | exact Hok].
    + exact Hbad.
    + unfold compiled at 1. rewrite Hre, Hfst. reflexivity.
Qed.

Lemma compileHandlers_stops_at_first_error_witness :
  exists before h after,
    Handlers (Scenario.factory Scenario.device ["/foo"; "("; "a"])
    = (before ++ h :: after)%list
    /\ Forall (fun h => snd (regexp_Compile Scenario.E_ok (HandlerKey h)) = None)
              before
    /\ snd (regexp_Compile Scenario.E_ok (HandlerKey h))
       = Some (errors_New "missing closing )")
    /\ fst (compileHandlers Scenario.E_ok
              (Handlers (Scenario.factory Scenario.device ["/foo"; "("; "a"])))
       = (map (compiled Scenario.E_ok) before ++ compiled Scenario.E_ok h :: after)%list.
Proof.
  apply (compileHandlers_stops_at_first_error Scenario.E_ok
           (Handlers (Scenario.factory Scenario.device ["/foo"; "("; "a"]))
           (errors_New "missing closing )")).
  reflexivity.
Defined.

(** ** The exits of the read loop *)

(** X13.  [read] never ends cleanly: whenever it returns, it returns an
    error. *)
Theorem read_returns_only_errors (E : Externals) (c : Kratos.client)
    (fuel : nat) (w w' : World) (r : option error) :
  Kratos.read E fuel c w = (Return r, w') -> exists e, r = Some e.
Proof.
  unfold Kratos.read, defer, bind, call, ret, panic.
  destruct (read_loop_events E c fuel w) as (evs & _ & _ & Hret).
  destruct (Kratos.read_loop E fuel c w) as [[r'| reason |] w1]; simpl in *;
    try discriminate.
  intros H. injection H as <- _. destruct (Hret r' eq_refl) as [e ->].
  exists e. reflexivity.
Qed.

Lemma read_returns_only_errors_witness :
  exists e, Some (errors_New "unexpected EOF") = Some e.
Proof.
  apply (read_returns_only_errors Scenario.E_ok Scenario.client_ok 3 World_init
           (snd (Kratos.read Scenario.E_ok 3 Scenario.client_ok World_init))).
  vm_compute. reflexivity.
Defined.

(** X14.  All that [read] does to the outside is read from its connection
    and call handlers, and, exactly when it leaves its loop, by return or
    by panic, close the connection once as its last act; while it is still
    in the loop the connection is not closed by it.  It never writes, and
    leaves the stop channel, the timer and the watchdog alone. *)
Theorem read_closes_on_every_exit (E : Externals) (c : Kratos.client)
    (fuel : nat) (w : World) :
  exists evs,
    forallb (is_read_or_handle (Kratos.connection c)) evs = true
    /\ snd (Kratos.read E fuel c w)
       = set_trace (trace w ++ evs
                    ++ match fst (Kratos.read E fuel c w) with
                       | Pending => []
                       | _ => [EvClose (Kratos.connection c)]
                       end)%list w.
Proof.
  unfold Kratos.read, defer, bind, call, ret, panic.
  destruct (read_loop_events E c fuel w) as (evs & Hw & Hevs & _).
  exists evs. split; [exact Hevs |].
  destruct (Kratos.read_loop E fuel c w) as [[r| reason |] w1]; simpl in *;
    subst w1; simpl; rewrite <- ?app_assoc, ?app_nil_r; reflexivity.
Qed.

(** X15.  The loop of [read] ends at the first failure: a read that fails,
    or a frame that is read and does not decode, ends [read] with that
    error; no handler is called for it, and the connection is closed. *)
Theorem read_ends_at_first_failure (E : Externals) (c : Kratos.client)
    (fuel : nat) (w : World) (messageType : Z) (frame : string) :
  (forall e,
     conn_ReadMessage E (trace w) (Kratos.connection c)
     = (messageType, frame, Some e) ->
     Kratos.read E (S fuel) c w
     = (Return (Some e),
        set_trace (trace w ++ [EvReadMessage (Kratos.connection c);
                               EvClose (Kratos.connection c)])%list w))
  /\ (forall msg e,
        conn_ReadMessage E (trace w) (Kratos.connection c)
        = (messageType, frame, None) ->
        wrp_Decode E frame = (msg, Some e) ->
        Kratos.read E (S fuel) c w
        = (Return (Some e),
           set_trace (trace w ++ [EvReadMessage (Kratos.connection c);
                                  EvClose (Kratos.connection c)])%list w)).
Proof.
  split.
  - intros e Hread.
    exact (read_stops_on_read_error E c fuel w messageType frame e Hread).
  - intros msg e Hread Hdecode.
    exact (read_stops_on_decode_error E c fuel w messageType frame msg e
             Hread Hdecode).
Qed.

Lemma read_ends_at_first_failure_witness :
  Kratos.read Scenario.E_dead 5 Scenario.client_ok World_init
  = (Return (Some (errors_New "unexpected EOF")),
     set_trace [EvReadMessage 7%nat; EvClose 7%nat] World_init)
  /\ Kratos.read Codec.E_garbage 5 Scenario.client_ok
                 (set_trace [EvReadMessage 7%nat] World_init)
     = (Return (Some (errors_New "msgpack: invalid code")),
        set_trace [EvReadMessage 7%nat; EvReadMessage 7%nat; EvClose 7%nat]
                  World_init).
Proof.
  split.
  - apply (proj1 (read_ends_at_first_failure Scenario.E_dead Scenario.client_ok 4
                    World_init (-1) "")).
    reflexivity.
  - apply (proj2 (read_ends_at_first_failure Codec.E_garbage Scenario.client_ok 4
                    (set_trace [EvReadMessage 7%nat] World_init)
                    websocket.BinaryMessage "garbage")
             (Scenario.message_to ""));
      reflexivity.
Defined.

(** ** The watchdog of [kratos.go] over its lifetime *)

Lemma pings_app (t1 t2 : list Event) : pings (t1 ++ t2) = (pings t1 + pings t2)%nat.
Proof. unfold pings. rewrite List.filter_app. apply length_app. Qed.

(** One reaction writes a ping only when the timer was running, and leaves
    the timer not running then; nothing starts the timer again. *)
Lemma react_pings (E : Externals) (c : Kratos.client) (s : Kratos.stimulus)
    (w : World) :
  let w' := snd (Kratos.react E c s w) in
  (pingTimer w <> timer_armed ->
     pings (trace w') = pings (trace w) /\ pingTimer w' <> timer_armed)
  /\ (pingTimer w = timer_armed ->
        (pings (trace w') = pings (trace w))
        \/ (pings (trace w') = S (pings (trace w)) /\ pingTimer w' <> timer_armed)).
Proof.
  destruct w as [t st tm wd]. cbv zeta.
  assert (tm = timer_armed \/ tm <> timer_armed) as Htm
    by (destruct tm; auto; right; discriminate).
  destruct s; unfold_reaction.
  all: repeat (case_match; simplify_eq; simpl in * ).
  all: rewrite ?pings_app; unfold pings; simpl.
  all: split; [intros Hne; split; [try lia; try congruence | try congruence]
              | intros Heq;
                first [ left; lia
                      | right; split; [lia | congruence] ] ].
Qed.

(** X16.  Over its whole life the watchdog writes at most one ping: its
    timer fires once and is never reset, so whatever the schedule of
    periods, pongs and [Close] calls, the trace gains at most one ping, and
    none once the timer has fired or was stopped. *)
Theorem watchdog_writes_at_most_one_ping (E : Externals) (c : Kratos.client)
    (schedule : list Kratos.stimulus) (w : World) :
  (pings (trace (snd (Kratos.system E c schedule w))) <= S (pings (trace w)))%nat
  /\ (pingTimer w <> timer_armed ->
      pings (trace (snd (Kratos.system E c schedule w))) = pings (trace w)).
Proof.
  revert w. induction schedule as [|s rest IH]; intros w.
  - simpl. split; [lia | reflexivity].
  - simpl. pose proof (react_pings E c s w) as [Hidle Harmed]. cbv zeta in *.
    destruct (Kratos.react E c s w) as [o w1]. simpl in Hidle, Harmed.
    assert (pings (trace (snd (let (os, w'') := Kratos.system E c rest w1 in
                               (o :: os, w''))))
            = pings (trace (snd (Kratos.system E c rest w1)))) as Hsame
      by (destruct (Kratos.system E c rest w1); reflexivity).
    destruct (IH w1) as [IHle IHeq].
    assert (pingTimer w = timer_armed \/ pingTimer w <> timer_armed) as [Ha | Hi]
      by (destruct (pingTimer w); auto; right; discriminate).
    + destruct (Harmed Ha) as [Hp | [Hp Hoff]].
      * destruct o as [u | r |]; simpl; rewrite ?Hsame; split; try lia; congruence.
      * specialize (IHeq Hoff).
        destruct o as [u | r |]; simpl; rewrite ?Hsame; split; try lia; congruence.
    + destruct (Hidle Hi) as [Hp Hoff]. specialize (IHeq Hoff).
      destruct o as [u | r |]; simpl; rewrite ?Hsame; split; try lia; intros _; lia.
Qed.

Lemma watchdog_writes_at_most_one_ping_witness :
  pings (trace (snd (Kratos.system Scenario.E_ok Scenario.client_ok
                       [Kratos.Elapse; Kratos.Pong; Kratos.Elapse; Kratos.Elapse]
                       (snd (Kratos.system Scenario.E_ok Scenario.client_ok
                               [Kratos.Elapse] Scenario.started_world)))))
  = 1%nat.
Proof.
  apply (proj2 (watchdog_writes_at_most_one_ping Scenario.E_ok Scenario.client_ok
                  [Kratos.Elapse; Kratos.Pong; Kratos.Elapse; Kratos.Elapse]
                  (snd (Kratos.system Scenario.E_ok Scenario.client_ok
                          [Kratos.Elapse] Scenario.started_world)))).
  discriminate.
Defined.

(** X17.  However the watchdog leaves its loop, it closes the connection
    and the stop channel and stops its timer.  After a [Close] it first
    writes a close frame; after a failed probe write it writes none. *)
Theorem watchdog_exit_closes_connection (E : Externals) (c : Kratos.client)
    (w : World) :
  stop w = chan_open -> watchdog w = in_select ->
  let conn := Kratos.conn (Kratos.client_pingHandler c) in
  Kratos.system E c [Kratos.CallClose; Kratos.Resume] w
  = ([Return tt; Return tt],
     {| trace := (trace w ++ [EvWriteMessage conn websocket.CloseMessage "";
                              EvClose conn])%list;
        stop := chan_closed; pingTimer := timer_idle; watchdog := finished |})
  /\ (forall e, pingTimer w = timer_armed ->
        conn_WriteMessage E (trace w ++ [EvSetWriteDeadline conn Kratos.writeWait])%list
                          conn websocket.PingMessage "" = Some e ->
        Kratos.system E c [Kratos.Elapse; Kratos.Resume] w
        = ([Return tt; Return tt],
           {| trace := (trace w ++ [EvSetWriteDeadline conn Kratos.writeWait;
                                    EvWriteMessage conn websocket.PingMessage "";
                                    EvClose conn])%list;
              stop := chan_closed; pingTimer := timer_idle;
              watchdog := finished |})).
Proof.
  intros Hopen Hin conn.
  destruct w as [t st tm wd]. simpl in *. subst st wd. split.
  - unfold Kratos.system. unfold_reaction. rewrite <- !app_assoc. reflexivity.
  - intros e -> Hwrite. unfold Kratos.system. unfold_reaction.
    fold conn. rewrite Hwrite. simpl. rewrite <- !app_assoc. reflexivity.
Qed.

Lemma watchdog_exit_closes_connection_witness :
  Kratos.system Scenario.E_ok Scenario.client_ok
                [Kratos.CallClose; Kratos.Resume] Scenario.started_world
  = ([Return tt; Return tt],
     {| trace := [EvWriteMessage 7%nat websocket.CloseMessage ""; EvClose 7%nat];
        stop := chan_closed; pingTimer := timer_idle; watchdog := finished |})
  /\ Kratos.system Scenario.E_dead Scenario.client_ok
                   [Kratos.Elapse; Kratos.Resume] Scenario.started_world
     = ([Return tt; Return tt],
        {| trace := [EvSetWriteDeadline 7%nat Kratos.writeWait;
                     EvWriteMessage 7%nat websocket.PingMessage "";
                     EvClose 7%nat];
           stop := chan_closed; pingTimer := timer_idle; watchdog := finished |}).
Proof.
  split.
  - exact (proj1 (watchdog_exit_closes_connection Scenario.E_ok Scenario.client_ok
                    Scenario.started_world eq_refl eq_refl)).
  - apply (proj2 (watchdog_exit_closes_connection Scenario.E_dead Scenario.client_ok
                    Scenario.started_world eq_refl eq_refl)
             (errors_New "write: broken pipe"));
      reflexivity.
Defined.

(** ** The earlier revision: the dial *)

(** The earlier [createConnection] on a [307]: the request, the dial, and
    whatever connection the dialer returned, with a nil error. *)
Lemma Legacy_createConnection_redirect (E : Externals) (headerInfo : clientHeader)
    (httpURL crtFile keyFile : string) (resp : http.Response) (w : World) :
  device_ParseID E (deviceName headerInfo) = None ->
  (crtFile <> "" -> keyFile <> "" ->
   tls_LoadX509KeyPair E crtFile keyFile = None) ->
  url_Parse E httpURL = None ->
  client_Do E (legacy_http_client crtFile keyFile)
            (device_name_request headerInfo httpURL) = (Some resp, None) ->
  http.StatusCode resp = 307 ->
  Legacy.createConnection E headerInfo httpURL crtFile keyFile w
  = (Return (fst (fst (dialer_Dial E (legacy_dialer crtFile keyFile)
                         (legacy_wsURL resp) (identity_headers headerInfo))),
             legacy_wsURL resp, None),
     set_trace (trace w ++ [EvDo (legacy_http_client crtFile keyFile)
                                 (device_name_request headerInfo httpURL);
                            EvDial (legacy_dialer crtFile keyFile)
                                   (legacy_wsURL resp)
                                   (identity_headers headerInfo)])%list w).
Proof.
  intros Hid Hload Hurl Hdo Hstatus.
  unfold Legacy.createConnection, legacy_http_client, legacy_dialer in *.
  rewrite Hid. unfold http_NewRequest. rewrite Hurl.
  unfold http.Header_Set; simpl. rewrite insert_empty.
  fold (device_name_request headerInfo httpURL).
  destruct (bool_decide (crtFile ≠ "") && bool_decide (keyFile ≠ "")) eqn:Hboth.
  - apply andb_prop in Hboth as [Hc Hk].
    apply bool_decide_eq_true_1 in Hc. apply bool_decide_eq_true_1 in Hk.
    rewrite (Hload Hc Hk). rewrite bind_call, Hdo. cbn [fst snd].
    rewrite Hstatus. change (307 =? http.StatusTemporaryRedirect) with true.
    cbv iota. fold (legacy_wsURL resp). rewrite bind_call.
    destruct (dialer_Dial E _ (legacy_wsURL resp) (identity_headers headerInfo))
      as [[cn up] er].
    unfold ret. cbn [fst snd trace set_trace]. rewrite <- app_assoc. reflexivity.
  - rewrite bind_call, Hdo. cbn [fst snd].
    rewrite Hstatus. change (307 =? http.StatusTemporaryRedirect) with true.
    cbv iota. fold (legacy_wsURL resp). rewrite bind_call.
    destruct (dialer_Dial E _ (legacy_wsURL resp) (identity_headers headerInfo))
      as [[cn up] er].
    unfold ret. cbn [fst snd trace set_trace]. rewrite <- app_assoc. reflexivity.
Qed.

(** X18.  The earlier [createConnection] drops the error of the dial: when
    the dialer returns no connection, [New] does not return that error but
    goes on with a nil connection and panics at [SetPingHandler]. *)
Theorem Legacy_New_panics_when_dial_fails (E : Externals) (f : ClientFactory)
    (resp : http.Response) (upgrade : option http.Response)
    (err : option error) (w : World) :
  device_ParseID E (DeviceName f) = None ->
  (CRT f <> "" -> Key f <> "" -> tls_LoadX509KeyPair E (CRT f) (Key f) = None) ->
  url_Parse E (DestinationURL f) = None ->
  client_Do E (legacy_http_client (CRT f) (Key f))
            (device_name_request (inHeader_of f) (DestinationURL f))
  = (Some resp, None) ->
  http.StatusCode resp = 307 ->
  dialer_Dial E (legacy_dialer (CRT f) (Key f)) (legacy_wsURL resp)
              (identity_headers (inHeader_of f))
  = (None, upgrade, err) ->
  Legacy.New E f w
  = (Panic nil_dereference,
     set_trace (trace w ++ [EvDo (legacy_http_client (CRT f) (Key f))
                                 (device_name_request (inHeader_of f)
                                                      (DestinationURL f));
                            EvDial (legacy_dialer (CRT f) (Key f))
                                   (legacy_wsURL resp)
                                   (identity_headers (inHeader_of f))])%list w).
Proof.
  intros Hid Hload Hurl Hdo Hstatus Hdial.
  unfold Legacy.New, bind at 1.
  rewrite (Legacy_createConnection_redirect E (inHeader_of f) (DestinationURL f)
             (CRT f) (Key f) resp w Hid Hload Hurl Hdo Hstatus).
  rewrite Hdial. reflexivity.
Qed.

Lemma Legacy_New_panics_when_dial_fails_witness :
  run (Legacy.New Faults.E_bare_refused Scenario.f_ok)
  = (Panic nil_dereference,
     set_trace [EvDo {| Transport := None |}
                     (device_name_request (inHeader_of Scenario.f_ok)
                                          "http://petasos:6400/");
                EvDial (Legacy.DefaultDialer None) "/api/v2/device"
                       (identity_headers (inHeader_of Scenario.f_ok))]
               World_init).
Proof.
  apply (Legacy_New_panics_when_dial_fails Faults.E_bare_refused Scenario.f_ok
           Scenario.bare_redirect None
           (Some (errors_New "malformed ws or wss URL")) World_init);
    reflexivity.
Defined.

(** Every way the earlier [New] ends when a [307] handed back names no
    [Location] and the dial of the bare suffix gives no connection. *)
Lemma Legacy_New_outcomes (E : Externals) (f : ClientFactory) (w : World) :
  (forall client req resp,
     client_Do E client req = (Some resp, None) ->
     http.StatusCode resp = 307 ->
     http.Header_Get (http.Response_Header resp) "Location" = "") ->
  (forall dialer headers,
     fst (fst (dialer_Dial E dialer "/api/v2/device" headers)) = None) ->
  exists o w',
    Legacy.New E f w = (o, w')
    /\ (forall c e, o <> Return (Some c, e))
    /\ started (trace w') = started (trace w).
Proof.
  intros Hfollow Hscheme.
  unfold Legacy.New, Legacy.createConnection, bind at 1.
  destruct (device_ParseID E (DeviceName f)) as [e|] eqn:Hid;
    cbn [inHeader_of deviceName]; rewrite ?Hid;
    [eexists; eexists; split; [reflexivity | split; [discriminate | reflexivity]] |].
  match goal with
  | |- context [if ?b then match tls_LoadX509KeyPair E ?c ?k with _ => _ end
                else ?z] =>
      destruct (if b then match tls_LoadX509KeyPair E c k with
                          | Some err => ({| Transport := None |}, None, Some err)
                          | None =>
                              ({| Transport :=
                                    Some {| DialTimeout := 0; KeepAlive := 0;
                                            TLSHandshakeTimeout := 0;
                                            Transport_TLSClientConfig :=
                                              {| crtFile := c; keyFile := k |} |} |},
                               Some {| crtFile := c; keyFile := k |}, None)
                          end
                else z) as [[client dialerTLS] [e|]]
  end;
    [eexists; eexists; split; [reflexivity | split; [discriminate | reflexivity]] |].
  destruct (http_NewRequest E "GET" (DestinationURL f)) as [[req|] ?];
    [| eexists; eexists; split; [reflexivity | split; [discriminate | reflexivity]]].
  rewrite bind_call.
  match goal with
  | |- context [client_Do E client ?r] =>
      pose proof (Hfollow client r) as Hloc;
      destruct (client_Do E client r) as [[resp|] [e|]]
  end;
    try (eexists; eexists; split;
         [reflexivity
         | split; [discriminate
                  | cbn [trace set_trace]; rewrite started_app; cbn;
                    apply app_nil_r]]).
  cbn [fst snd].
  destruct (http.StatusCode resp =? http.StatusTemporaryRedirect) eqn:Hstatus;
    [| eexists; eexists; split;
       [reflexivity
       | split; [discriminate
                | cbn [trace set_trace]; rewrite started_app; cbn;
                  apply app_nil_r]]].
  apply Z.eqb_eq in Hstatus.
  rewrite (Hloc resp eq_refl Hstatus).
  change (strings.Replace "" "http" "ws" 1 +:+ "/api/v2/device")
    with "/api/v2/device".
  rewrite bind_call.
  match goal with
  | |- context [dialer_Dial E ?d "/api/v2/device" ?h] =>
      pose proof (Hscheme d h) as Hnil;
      destruct (dialer_Dial E d "/api/v2/device" h) as [[cn up] er]
  end.
  cbn [fst snd] in Hnil. subst cn.
  eexists; eexists; split; [reflexivity |]. split; [discriminate |].
  cbn [fst snd ret trace set_trace]. rewrite !started_app. cbn.
  rewrite !app_nil_r. reflexivity.
Qed.

(** X25.  With an HTTP client that follows redirects, so that a [307] it
    hands back names no [Location], and a dialer that returns no connection
    for a URL without a scheme, [New] of the earlier revision never returns
    a client and starts no goroutine: the status test lets only the [307]
    through, the URL made from its empty [Location] is the bare device
    suffix, the dial of that fails, its error is dropped, and [New] panics
    on the nil connection; every other answer ends in an error or a panic
    before. *)
Theorem Legacy_New_never_returns_a_client (E : Externals) (f : ClientFactory)
    (w : World) :
  (forall client req resp,
     client_Do E client req = (Some resp, None) ->
     http.StatusCode resp = 307 ->
     http.Header_Get (http.Response_Header resp) "Location" = "") ->
  (forall dialer headers,
     fst (fst (dialer_Dial E dialer "/api/v2/device" headers)) = None) ->
  returned_client (Legacy.New E f w) = None
  /\ started (trace (snd (Legacy.New E f w))) = started (trace w).
Proof.
  intros Hfollow Hscheme.
  destruct (Legacy_New_outcomes E f w Hfollow Hscheme) as (o & w' & -> & Ho & Hs).
  split; [| exact Hs].
  unfold returned_client. cbn [fst].
  destruct o as [[[c|] e] | reason |]; try reflexivity.
  exfalso. exact (Ho c e eq_refl).
Qed.

Lemma Legacy_New_never_returns_a_client_witness :
  returned_client (run (Legacy.New Faults.E_bare_refused Scenario.f_ok)) = None
  /\ started (trace (snd (run (Legacy.New Faults.E_bare_refused Scenario.f_ok))))
     = started (trace World_init).
Proof.
  apply (Legacy_New_never_returns_a_client Faults.E_bare_refused Scenario.f_ok
           World_init).
  - intros client req resp Hdo _. injection Hdo as <-. reflexivity.
  - intros dialer headers. reflexivity.
Defined.

(** ** The last colon of a text *)

Lemma LastIndex_lower (s substr : string) : -1 <= strings.LastIndex s substr.
Proof.
  induction s as [|a s IH]; cbn [strings.LastIndex]; cbv zeta.
  - destruct (String.prefix substr ""); lia.
  - destruct (0 <=? strings.LastIndex s substr) eqn:Hr.
    + apply Z.leb_le in Hr. lia.
    + destruct (String.prefix substr (String a s)); lia.
Qed.

Lemma LastIndex_String (a : Ascii.ascii) (s substr : string) :
  strings.LastIndex (String a s) substr
  = if 0 <=? strings.LastIndex s substr then 1 + strings.LastIndex s substr
    else if String.prefix substr (String a s) then 0 else -1.
Proof. reflexivity. Qed.

(** ** The earlier revision: its watchdog *)

(** X21.  The watchdog of the earlier revision cannot leave its loop
    without a panic: its deferred calls close the stop channel first and
    then call [Close], which sends on that channel.  So a [Close] that
    returned is followed by the panic [send on closed channel] as soon as
    the watchdog goroutine runs on; the watchdog itself closes nothing. *)
Theorem Legacy_watchdog_exit_panics (E : Externals) (c : Legacy.client)
    (w : World) :
  (watchdog w = returning ->
   (exists r, fst (Legacy.react E c Legacy.Resume w) = Panic r)
   /\ trace (snd (Legacy.react E c Legacy.Resume w)) = trace w)
  /\ (stop w = chan_open -> watchdog w = in_select ->
      Legacy.system E c [Legacy.CallClose; Legacy.Resume] w
      = ([Return tt; Panic "send on closed channel"],
         {| trace := (trace w ++ [EvClose (Legacy.connection c)])%list;
            stop := chan_closed; pingTimer := pingTimer w;
            watchdog := returning |})).
Proof.
  destruct w as [t st tm wd]. simpl. split.
  - intros ->. unfold_legacy_reaction.
    destruct st; simpl; (split; [eexists; reflexivity | reflexivity]).
  - intros -> ->. unfold Legacy.system. unfold_legacy_reaction. reflexivity.
Qed.

Lemma Legacy_watchdog_exit_panics_witness :
  Legacy.system Scenario.E_ok Scenario.legacy_client_ok
                [Legacy.CallClose; Legacy.Resume] Scenario.started_world
  = ([Return tt; Panic "send on closed channel"],
     {| trace := [EvClose 7%nat]; stop := chan_closed; pingTimer := timer_armed;
        watchdog := returning |}).
Proof.
  exact (proj2 (Legacy_watchdog_exit_panics Scenario.E_ok
                  Scenario.legacy_client_ok Scenario.started_world)
           eq_refl eq_refl).
Defined.

Lemma Legacy_system_cons (E : Externals) (c : Legacy.client)
    (s : Legacy.stimulus) (rest : list Legacy.stimulus) (w : World) :
  Legacy.system E c (s :: rest) w
  = match Legacy.react E c s w with
    | (Panic r, w') => ([Panic r], w')
    | (o, w') => let (os, w'') := Legacy.system E c rest w' in (o :: os, w'')
    end.
Proof. reflexivity. Qed.

(** Once the watchdog waits for a timer value that does not come, nothing
    moves any more: [Close] and the ping handler do not return. *)
Lemma Legacy_wedged_forever (E : Externals) (c : Legacy.client)
    (schedule : list Legacy.stimulus) (w : World) :
  stop w = chan_open -> pingTimer w = timer_idle -> watchdog w = draining ->
  Legacy.system E c schedule w = (map wedged schedule, w).
Proof.
  intros Hstop Htimer Hwatchdog.
  induction schedule as [|s rest IH]; [reflexivity |].
  rewrite Legacy_system_cons. cbn [map].
  assert (Legacy.react E c s w = (wedged s, w)) as ->.
  { destruct w as [t st tm wd]. simpl in *. subst.
    destruct s; unfold_legacy_reaction; reflexivity. }
  rewrite IH. destruct s; reflexivity.
Qed.

(** X22.  In the earlier revision a miss calls the callback of the user and
    the watchdog keeps waiting.  A ping of the peer after that miss is
    answered with a pong, but the watchdog then waits for a value of the
    timer that has already been taken, and stays there: from then on no
    [Close] and no ping handler returns, whatever happens. *)
Theorem Legacy_ping_after_miss_wedges_watchdog (E : Externals)
    (c : Legacy.client) (h : HandlePingMiss) (appData : string)
    (schedule : list Legacy.stimulus) (w : World) :
  Legacy.handlePingMiss (Legacy.client_pingHandler c) = Some h ->
  stop w = chan_open -> pingTimer w = timer_armed -> watchdog w = in_select ->
  Legacy.system E c (Legacy.Elapse :: Legacy.Pinged appData :: schedule) w
  = (Return tt :: Return tt :: map wedged schedule,
     {| trace := (trace w ++ [EvHandlePingMiss;
                              EvWriteControl (Legacy.connection c)
                                websocket.PongMessage appData
                                Legacy.writeWait])%list;
        stop := chan_open; pingTimer := timer_idle; watchdog := draining |}).
Proof.
  intros Hh Hstop Htimer Hwatchdog.
  destruct w as [t st tm wd]. cbn [stop pingTimer watchdog trace] in *. subst.
  rewrite Legacy_system_cons.
  assert (Legacy.react E c Legacy.Elapse
            {| trace := t; stop := chan_open; pingTimer := timer_armed;
               watchdog := in_select |}
          = (Return tt,
             {| trace := (t ++ [EvHandlePingMiss])%list; stop := chan_open;
                pingTimer := timer_idle; watchdog := in_select |})) as ->.
  { unfold_legacy_reaction. rewrite Hh. reflexivity. }
  rewrite Legacy_system_cons.
  assert (Legacy.react E c (Legacy.Pinged appData)
            {| trace := (t ++ [EvHandlePingMiss])%list; stop := chan_open;
               pingTimer := timer_idle; watchdog := in_select |}
          = (Return tt,
             {| trace := (t ++ [EvHandlePingMiss;
                                EvWriteControl (Legacy.connection c)
                                  websocket.PongMessage appData
                                  Legacy.writeWait])%list;
                stop := chan_open; pingTimer := timer_idle;
                watchdog := draining |})) as ->.
  { unfold_legacy_reaction. rewrite <- app_assoc. reflexivity. }
  rewrite Legacy_wedged_forever by reflexivity. reflexivity.
Qed.

Lemma Legacy_ping_after_miss_wedges_watchdog_witness :
  Legacy.system Scenario.E_ok Scenario.legacy_client_ok
                [Legacy.Elapse; Legacy.Pinged "p"; Legacy.CallClose;
                 Legacy.Pinged "q"; Legacy.Elapse]
                Scenario.started_world
  = ([Return tt; Return tt; Pending; Pending; Return tt],
     {| trace := [EvHandlePingMiss;
                  EvWriteControl 7%nat websocket.PongMessage "p" Legacy.writeWait];
        stop := chan_open; pingTimer := timer_idle; watchdog := draining |}).
Proof.
  exact (Legacy_ping_after_miss_wedges_watchdog Scenario.E_ok
           Scenario.legacy_client_ok (fun _ => None) "p"
           [Legacy.CallClose; Legacy.Pinged "q"; Legacy.Elapse]
           Scenario.started_world eq_refl eq_refl eq_refl eq_refl).
Defined.

(** ** The texts of the errors *)

Lemma LastIndex_tail (a : Ascii.ascii) (s : string) :
  strings.LastIndex (String a s) ":" = -1 ->
  strings.LastIndex s ":" = -1 /\ String.prefix ":" (String a s) = false.
Proof.
  rewrite LastIndex_String. pose proof (LastIndex_lower s ":") as Hlow.
  destruct (0 <=? strings.LastIndex s ":") eqn:Hr.
  - apply Z.leb_le in Hr. lia.
  - apply Z.leb_gt in Hr.
    destruct (String.prefix ":" (String a s)); [discriminate |].
    intros _. split; [lia | reflexivity].
Qed.

(** Two texts cut at their first colon. *)
Lemma split_at_colon (d1 d2 s1 s2 : string) :
  strings.LastIndex d1 ":" = -1 -> strings.LastIndex d2 ":" = -1 ->
  d1 +:+ ":" +:+ s1 = d2 +:+ ":" +:+ s2 -> d1 = d2 /\ s1 = s2.
Proof.
  revert d2. induction d1 as [|a d1 IH]; intros [|b d2] H1 H2 Heq.
  - rewrite !append_EmptyString, !append_String, !append_EmptyString in Heq.
    injection Heq as ->. split; reflexivity.
  - exfalso. rewrite !append_EmptyString, !append_String, !append_EmptyString in Heq.
    injection Heq as <- _. apply LastIndex_tail in H2 as [_ H2].
    destruct d2; discriminate H2.
  - exfalso. rewrite !append_EmptyString, !append_String, !append_EmptyString in Heq.
    injection Heq as -> _. apply LastIndex_tail in H1 as [_ H1].
    destruct d1; discriminate H1.
  - rewrite !append_String in Heq. injection Heq as -> Heq.
    apply LastIndex_tail in H1 as [H1 _]. apply LastIndex_tail in H2 as [H2 _].
    destruct (IH d2 H1 H2 Heq) as [-> ->]. split; reflexivity.
Qed.

Lemma string_of_uint_no_colon (d : Decimal.uint) :
  strings.LastIndex (DecimalString.NilEmpty.string_of_uint d) ":" = -1.
Proof.
  induction d; cbn [DecimalString.NilEmpty.string_of_uint];
    [reflexivity | rewrite LastIndex_String, IHd; reflexivity ..].
Qed.

Lemma Sprintf_d_no_colon (n : Z) : strings.LastIndex (Sprintf_d n) ":" = -1.
Proof.
  unfold Sprintf_d, DecimalString.NilZero.string_of_int,
    DecimalString.NilZero.string_of_uint.
  destruct (Z.to_int n) as [d | d]; destruct d; try reflexivity;
    try (rewrite LastIndex_String);
    try (rewrite (string_of_uint_no_colon (Decimal.D0 d)));
    try (rewrite (string_of_uint_no_colon (Decimal.D1 d)));
    try (rewrite (string_of_uint_no_colon (Decimal.D2 d)));
    try (rewrite (string_of_uint_no_colon (Decimal.D3 d)));
    try (rewrite (string_of_uint_no_colon (Decimal.D4 d)));
    try (rewrite (string_of_uint_no_colon (Decimal.D5 d)));
    try (rewrite (string_of_uint_no_colon (Decimal.D6 d)));
    try (rewrite (string_of_uint_no_colon (Decimal.D7 d)));
    try (rewrite (string_of_uint_no_colon (Decimal.D8 d)));
    try (rewrite (string_of_uint_no_colon (Decimal.D9 d)));
    reflexivity.
Qed.

Lemma Sprintf_d_inj (n m : Z) : Sprintf_d n = Sprintf_d m -> n = m.
Proof.
  unfold Sprintf_d. intros Heq. apply DecimalZ.to_int_inj.
  assert (forall z, Z.to_int z <> Decimal.Pos Decimal.Nil
                    /\ Z.to_int z <> Decimal.Neg Decimal.Nil) as Hnonnil.
  { intros [|p|p]; simpl; split; try discriminate;
      intros H; injection H as H;
      exact (DecimalPos.Unsigned.to_uint_nonnil p H). }
  destruct (Hnonnil n) as [Hn1 Hn2]. destruct (Hnonnil m) as [Hm1 Hm2].
  pose proof (DecimalString.NilZero.isi (Z.to_int n) Hn1 Hn2) as Hn.
  pose proof (DecimalString.NilZero.isi (Z.to_int m) Hm1 Hm2) as Hm.
  rewrite Heq in Hn. rewrite Hn in Hm. injection Hm as ->. reflexivity.
Qed.

(** X23.  The text of a [Message] determines the message: the digits of
    the code hold no colon, so the code ends at the first colon and the
    rest, whatever it holds, is the message text. *)
Theorem Message_String_injective (msg1 msg2 : Message) :
  Message_String msg1 = Message_String msg2 -> msg1 = msg2.
Proof.
  unfold Message_String. intros Heq.
  destruct (split_at_colon _ _ _ _ (Sprintf_d_no_colon (Code msg1))
              (Sprintf_d_no_colon (Code msg2)) Heq) as [Hcode Hmsg].
  apply Sprintf_d_inj in Hcode.
  destruct msg1, msg2; simpl in *; subst; reflexivity.
Qed.

Lemma Message_String_injective_witness :
  {| Code := 500 + 23; Msg := "Error" +:+ "DeviceBusy" |}
  = {| Code := 523; Msg := "ErrorDeviceBusy" |}.
Proof.
  apply (Message_String_injective
           {| Code := 500 + 23; Msg := "Error" +:+ "DeviceBusy" |}
           {| Code := 523; Msg := "ErrorDeviceBusy" |}).
  reflexivity.
Defined.

(** X24.  When the body of a refused discovery leaves the decoded message
    at its zero value and the status is neither [523] nor [524], the text of
    the error [createError] builds is the same for every status: code [0],
    an empty message, and the text of the sub error. *)
Theorem createError_text_without_body (E : Externals) (resp : http.Response)
    (sub : error) :
  json_Unmarshal E (http.Body resp) Message_zero = Message_zero ->
  http.StatusCode resp <> 523 -> http.StatusCode resp <> 524 ->
  Error (createError E resp sub) = "message: 0: with error: " +:+ Error sub.
Proof.
  intros Hbody H523 H524.
  rewrite createError_message. cbv zeta. rewrite Hbody.
  apply Z.eqb_neq in H523. apply Z.eqb_neq in H524.
  rewrite H523, H524. reflexivity.
Qed.

Lemma createError_text_without_body_witness :
  Error (createError Scenario.E_ok
           (Scenario.response 404 "" "" None)
           (errors_New "Received invalid response from petasos!"))
  = "message: 0: with error: Received invalid response from petasos!".
Proof.
  apply (createError_text_without_body Scenario.E_ok
           (Scenario.response 404 "" "" None)
           (errors_New "Received invalid response from petasos!"));
    [reflexivity | discriminate | discriminate].
Defined.
